(** * Medium scraper and search API: a shallow embedding and its properties

    The development follows the two source files of the repository.

    - [Scraper] embeds [src/scraper.py]: [fetch_url] (the retry loop around
      [requests.get]) and [extract_medium_data] (the layered extraction of one
      article record from a parsed page).
    - [Api] embeds [src/api.py]: [load_data_and_prepare_model] (snapshot
      loading, claps coercion) and [search_articles] (the ranking endpoint).

    Python values are modelled by the inductive type [Py.pyval]; a function
    that can raise returns an [outcome]; the effects of [fetch_url] (requests
    sent, seconds slept) are recorded in a trace.  A Python string is a Rocq
    string, one character per byte.  Floating point numbers are idealised as
    exact rationals ([Q]); the 64-bit integer arithmetic of the data frame
    keeps its wrap-around.  The libraries the code calls (the HTML and JSON
    parsers, [urlparse], the TF-IDF vectorizer, [argsort]) are taken as
    given: their results are inputs or parameters of the model. *)

From Stdlib Require Import ZArith QArith Qround Qabs Ascii String List Lia Lqa.
From Stdlib Require Import Sorted Permutation.
From stdpp Require Import gmap strings list fin_maps sorting pretty.

Set Warnings "-register-all".
Close Scope Q_scope.
Open Scope Z_scope.

(** ** Python values, exceptions and outcomes *)

Module Py.

(** The exception classes the two source files can meet. *)
Inductive exn : Type :=
| AttributeError
| TypeError
| KeyError
| ValueError
| OverflowError
| IndexError
| IntCastingNaNError.

(** The result of running a piece of Python: a value, or a raised exception. *)
Inductive outcome (A : Type) : Type :=
| Returned (a : A)
| Raised (e : exn).
Arguments Returned {A} a.
Arguments Raised {A} e.

Definition bind {A B} (m : outcome A) (k : A -> outcome B) : outcome B :=
  match m with
  | Returned a => k a
  | Raised e => Raised e
  end.

(** Python values as [json.loads] and the scraper build them.  A finite
    float is an exact rational; a dict is its list of items (keys unique). *)
Inductive pyval : Type :=
| PNone
| PBool (b : bool)
| PInt (z : Z)
| PFloat (q : Q)
| PNaN
| PInf (negative : bool)
| PStr (s : string)
| PList (l : list pyval)
| PDict (d : list (string * pyval)).

Fixpoint assoc {V} (k : string) (d : list (string * V)) : option V :=
  match d with
  | [] => None
  | (k', v) :: d' => if String.eqb k k' then Some v else assoc k d'
  end.

(** [bool(v)]. *)
Definition truthy (v : pyval) : bool :=
  match v with
  | PNone => false
  | PBool b => b
  | PInt z => negb (z =? 0)
  | PFloat q => negb (Qeq_bool q 0)
  | PNaN | PInf _ => true
  | PStr s => negb (String.eqb s "")
  | PList l => match l with [] => false | _ => true end
  | PDict d => match d with [] => false | _ => true end
  end.

(** [a or b], with [b] evaluated only when [a] is falsy. *)
Definition py_or (a : pyval) (b : outcome pyval) : outcome pyval :=
  if truthy a then Returned a else b.

(** [v.get(key, default)]: only a dict has the method. *)
Definition py_get (v : pyval) (key : string) (default : pyval) : outcome pyval :=
  match v with
  | PDict d => Returned (match assoc key d with Some x => x | None => default end)
  | _ => Raised AttributeError
  end.

(** [v[key]] for a string key. *)
Definition py_getitem (v : pyval) (key : string) : outcome pyval :=
  match v with
  | PDict d => match assoc key d with Some x => Returned x | None => Raised KeyError end
  | _ => Raised TypeError
  end.

Fixpoint chars (s : string) : list pyval :=
  match s with
  | EmptyString => []
  | String c s' => PStr (String c EmptyString) :: chars s'
  end.

(** The elements [for x in v] goes through. *)
Definition py_iter (v : pyval) : outcome (list pyval) :=
  match v with
  | PList l => Returned l
  | PDict d => Returned (map (fun kv => PStr (fst kv)) d)
  | PStr s => Returned (chars s)
  | _ => Raised TypeError
  end.

(** A list comprehension [[f x for x in xs]] whose body can raise. *)
Fixpoint comprehension {A B} (f : A -> outcome B) (xs : list A) : outcome (list B) :=
  match xs with
  | [] => Returned []
  | x :: xs' =>
      match f x with
      | Returned y =>
          match comprehension f xs' with
          | Returned ys => Returned (y :: ys)
          | Raised e => Raised e
          end
      | Raised e => Raised e
      end
  end.

Fixpoint join_strings (sep : string) (l : list string) : string :=
  match l with
  | [] => ""
  | [s] => s
  | s :: l' => s +:+ sep +:+ join_strings sep l'
  end.

(** [sep.join(l)]: every item has to be a [str]. *)
Definition py_join (sep : string) (l : list pyval) : outcome string :=
  match comprehension (fun v => match v with PStr s => Returned s | _ => Raised TypeError end) l with
  | Returned ss => Returned (join_strings sep ss)
  | Raised e => Raised e
  end.

(** The number a bool, int or finite float stands for. *)
Definition numeric (v : pyval) : option Q :=
  match v with
  | PBool b => Some (inject_Z (if b then 1 else 0))
  | PInt z => Some (inject_Z z)
  | PFloat q => Some q
  | _ => None
  end.

(** [a is b or a == b], the comparison of the items of two containers.  The
    values compared come from one [json.loads], where NaN is one object. *)
Fixpoint same_or_equal (a b : pyval) {struct a} : bool :=
  match a, b with
  | PNone, PNone => true
  | PNaN, PNaN => true
  | PStr s, PStr t => String.eqb s t
  | PInf n, PInf m => Bool.eqb n m
  | PList l, PList m =>
      (fix go (l m : list pyval) {struct l} : bool :=
         match l, m with
         | [], [] => true
         | x :: l', y :: m' => same_or_equal x y && go l' m'
         | _, _ => false
         end) l m
  | PDict d, PDict e =>
      (length d =? length e)%nat &&
      (fix go (d : list (string * pyval)) {struct d} : bool :=
         match d with
         | [] => true
         | (k, v) :: d' =>
             match assoc k e with
             | Some w => same_or_equal v w && go d'
             | None => false
             end
         end) d
  | (PBool _ | PInt _ | PFloat _), (PBool _ | PInt _ | PFloat _) =>
      match numeric a, numeric b with
      | Some x, Some y => Qeq_bool x y
      | _, _ => false
      end
  | _, _ => false
  end.

(** [a == b]: NaN is not equal to itself. *)
Definition py_eq (a b : pyval) : bool :=
  match a, b with
  | PNaN, PNaN => false
  | _, _ => same_or_equal a b
  end.

(** Truncation toward zero, as [int(x)] does on a float. *)
Definition Qtrunc (q : Q) : Z := Z.quot (Qnum q) (Zpos (Qden q)).

(** The builtins and library functions taken as given: [repr] of floats,
    lists and dicts, [int] on a [str], and [urlparse(s).netloc], which raises
    [ValueError] on some malformed inputs. *)
Record builtins : Type := Builtins {
  py_repr : pyval -> string;
  int_of_str : string -> option Z;
  urlparse_netloc : string -> outcome string
}.

(** [str(v)], as an f-string field formats it. *)
Definition py_str (B : builtins) (v : pyval) : string :=
  match v with
  | PNone => "None"
  | PBool true => "True"
  | PBool false => "False"
  | PInt z => pretty z
  | PNaN => "nan"
  | PInf false => "inf"
  | PInf true => "-inf"
  | PStr s => s
  | PFloat _ | PList _ | PDict _ => py_repr B v
  end.

(** [int(v)]. *)
Definition py_int (B : builtins) (v : pyval) : outcome Z :=
  match v with
  | PBool b => Returned (if b then 1 else 0)
  | PInt z => Returned z
  | PFloat q => Returned (Qtrunc q)
  | PNaN => Raised ValueError
  | PInf _ => Raised OverflowError
  | PStr s => match int_of_str B s with Some z => Returned z | None => Raised ValueError end
  | PNone | PList _ | PDict _ => Raised TypeError
  end.

(** [needle in hay] on strings. *)
Fixpoint contains (needle hay : string) : bool :=
  String.prefix needle hay ||
  match hay with
  | EmptyString => false
  | String _ hay' => contains needle hay'
  end.

(** [s.endswith(suffix)]. *)
Definition endswith (s suffix : string) : bool :=
  (String.length suffix <=? String.length s)%nat &&
  String.eqb (String.substring (String.length s - String.length suffix)
                               (String.length suffix) s) suffix.

End Py.

Export Py.

Declare Scope py_scope.
Delimit Scope py_scope with py.
Notation "x <- m ;; k" := (Py.bind m (fun x => k))
  (at level 100, m at next level, right associativity) : py_scope.

(** ** src/scraper.py *)

Module Scraper.

(** *** fetch_url *)

(** What [requests.get(url, headers=headers, timeout=20)] does on one call:
    it returns a response object, or raises a [RequestException] that is not
    an [HTTPError] (a timeout, a connection error, an invalid URL). *)
Record response : Type := Response {
  status_code : Z;
  text : string
}.

Inductive get_result : Type :=
| Got (r : response)
| RequestException.

(** [response.raise_for_status()] raises [HTTPError] exactly for the 4xx and
    5xx status codes. *)
Definition raise_for_status (r : response) : bool :=
  (400 <=? status_code r) && (status_code r <? 600).

(** The observable effects of [fetch_url]: each call of [requests.get] and
    each [time.sleep(delay)]. *)
Inductive event : Type :=
| EvGet
| EvSleep (delay : Z).

(** The network is the sequence of results of the successive calls of
    [requests.get]: [net k] is what call number [k] (from 0) gives. *)
Definition network : Type := nat -> get_result.

(** The body of [for attempt in range(max_retries)], from iteration [attempt]
    on, with [remaining] iterations left; [None] is Python's [None]. *)
Fixpoint fetch_loop (net : network) (attempt remaining : nat)
  : option response * list event :=
  match remaining with
  | O => (None, [])
  | S remaining' =>
      match net attempt with
      | Got r =>
          if raise_for_status r then
            if status_code r =? 403 then
              let delay := 5 * (Z.of_nat attempt + 1) in
              let '(res, tr) := fetch_loop net (S attempt) remaining' in
              (res, EvGet :: EvSleep delay :: tr)
            else (None, [EvGet])
          else (Some r, [EvGet])
      | RequestException => (None, [EvGet])
      end
  end.

Definition fetch_url (net : network) (max_retries : Z)
  : option response * list event :=
  fetch_loop net 0 (Z.to_nat max_retries).

(** The delays slept and the number of requests sent, read off a trace. *)
Definition sleeps (tr : list event) : list Z :=
  omap (fun e => match e with EvSleep d => Some d | EvGet => None end) tr.

Definition requests_sent (tr : list event) : nat :=
  length (omap (fun e => match e with EvGet => Some tt | EvSleep _ => None end) tr).

(** *** extract_medium_data *)

(** The page as [BeautifulSoup(response.text, 'html.parser')] presents it to
    the queries the function makes.  A tag object is always truthy, so a
    query result is an [option]. *)
Inductive script_json : Type :=
| LoadsRaised                  (* json.loads(data_script.string) raised *)
| Loaded (json_data : pyval).  (* json.loads(data_script.string) returned *)

Record soup : Type := Soup {
  next_data_script : option script_json; (* soup.find('script', {'id': '__NEXT_DATA__'}) *)
  h1_text : option string;       (* soup.find('h1'), then .text.strip() *)
  h2_text : option string;       (* soup.find('h2'), then .text.strip() *)
  div_main_text : option string; (* soup.find('div', role='main'), then .get_text(separator=' ', strip=True) *)
  article_text : option string;  (* soup.find('article'), then .get_text(separator=' ', strip=True) *)
  body_text : option string;     (* soup.body, then .get_text(separator=' ', strip=True) *)
  img_srcs : list (option string); (* img.get('src') for img in soup.find_all('img') *)
  a_hrefs : list string          (* a_tag['href'] for a_tag in soup.find_all('a', href=True) *)
}.

(** The dict [article_data]. *)
Abbreviation article_data := (gmap string pyval).

(** [d.get(key, default)] on [article_data]. *)
Definition dict_get (d : article_data) (key : string) (default : pyval) : pyval :=
  match d !! key with
  | Some v => v
  | None => default
  end.

(** One statement of the [try] block: when it raises, the handler prints a
    message and the block is left with [article_data] as it is then. *)
Definition try_ {A} (m : outcome A) (ad : article_data) (k : A -> article_data)
  : article_data :=
  match m with
  | Returned a => k a
  | Raised _ => ad
  end.

Notation "x <~ m 'except' ad ;; k" := (try_ m ad (fun x => k))
  (at level 100, m at next level, ad at next level, right associativity) : py_scope.

Local Open Scope py_scope.

(** [v.get(k1, {}).get(k2)] and [v.get(k1, {}).get(k2, default)]. *)
Definition get_get (v : pyval) (k1 k2 : string) (default : pyval) : outcome pyval :=
  d <- py_get v k1 (PDict []) ;; py_get d k2 default.

(** Lines 84 to 86: the text from the paragraphs of the JSON body model. *)
Definition text_from_json (post_data : pyval) (ad : article_data) : article_data :=
  text_paragraphs <~ (c <- py_get post_data "content" (PDict []) ;;
                      get_get c "bodyModel" "paragraphs" (PList [])) except ad ;;
  joined <~ (ps <- py_iter text_paragraphs ;;
             texts <- comprehension (fun p => py_get p "text" (PStr "")) ps ;;
             py_join " " texts) except ad ;;
  <["Text" := PStr joined]> ad.

(** Lines 71 to 82: the author, from the companion user object or from the
    creator embedded in the post. *)
Definition author_from_json (B : builtins) (page_props post_data : pyval)
    (ad : article_data) (k : article_data -> article_data) : article_data :=
  creator_id <~ py_get post_data "creatorId" PNone except ad ;;
  user <~ get_get page_props "pageData" "user" PNone except ad ;;
  matches <~ (if truthy user
              then uid <- py_get user "userId" PNone ;; Returned (py_eq uid creator_id)
              else Returned false) except ad ;;
  if (matches : bool) then
    name <~ py_get user "name" PNone except ad ;;
    let ad := <["Author Name" := name]> ad in
    username <~ py_get user "username" PNone except ad ;;
    k (<["Author URL" := PStr ("https://medium.com/@" +:+ py_str B username)]> ad)
  else
    author <~ py_get post_data "creator" PNone except ad ;;
    if truthy author then
      name <~ py_get author "name" PNone except ad ;;
      let ad := <["Author Name" := name]> ad in
      username <~ py_get author "username" PNone except ad ;;
      k (<["Author URL" := PStr ("https://medium.com/@" +:+ py_str B username)]> ad)
    else k ad.

(** Lines 56 to 86: the body of the [try] block, after [json.loads]. *)
Definition structured_layer (B : builtins) (json_data : pyval) (ad : article_data)
  : article_data :=
  page_props <~ get_get json_data "props" "pageProps" (PDict []) except ad ;;
  post_data <~ (p <- get_get page_props "pageData" "post" PNone ;;
                py_or p (py_get page_props "post" PNone)) except ad ;;
  if truthy post_data then
    title <~ py_get post_data "title" PNone except ad ;;
    let ad := <["Title" := title]> ad in
    subtitle <~ get_get post_data "virtuals" "subtitle" PNone except ad ;;
    let ad := <["Subtitle" := subtitle]> ad in
    claps <~ get_get post_data "virtuals" "totalClapCount" PNone except ad ;;
    let ad := <["Claps" := claps]> ad in
    reading_time <~ get_get post_data "virtuals" "readingTime" PNone except ad ;;
    let ad := <["Reading Time" := reading_time]> ad in
    keywords <~ (tags <- get_get post_data "virtuals" "tags" (PList []) ;;
                 items <- py_iter tags ;;
                 comprehension (fun tag => py_getitem tag "name") items) except ad ;;
    let ad := <["Keywords" := PList keywords]> ad in
    author_from_json B page_props post_data ad (text_from_json post_data)
  else ad.

(** Lines 50 to 91: the structured layer as a whole. *)
Definition json_layer (B : builtins) (page : soup) (ad : article_data) : article_data :=
  match next_data_script page with
  | Some (Loaded json_data) => structured_layer B json_data ad
  | Some LoadsRaised => ad
  | None => ad
  end.

(** Lines 95 to 103: the title and subtitle fallbacks. *)
Definition title_fallback (page : soup) (ad : article_data) : article_data :=
  if negb (truthy (dict_get ad "Title" PNone))
  then <["Title" := PStr (match h1_text page with Some t => t | None => "N/A" end)]> ad
  else ad.

Definition subtitle_fallback (page : soup) (ad : article_data) : article_data :=
  if negb (truthy (dict_get ad "Subtitle" PNone))
  then <["Subtitle" := PStr (match h2_text page with Some t => t | None => "N/A" end)]> ad
  else ad.

(** Lines 105 to 111: the text fallback.  [soup.body] is [None] on a page
    without a body element, and [None.get_text] raises. *)
Definition text_fallback (page : soup) (ad : article_data) : outcome article_data :=
  if negb (truthy (dict_get ad "Text" PNone)) then
    match (match div_main_text page with
           | Some t => Some t
           | None => article_text page
           end) with
    | Some main_content => Returned (<["Text" := PStr main_content]> ad)
    | None =>
        match body_text page with
        | Some b => Returned (<["Text" := PStr (String.substring 0 500 b +:+ "...")]> ad)
        | None => Raised AttributeError
        end
    end
  else Returned ad.

(** Lines 116 to 120: the images kept. *)
Definition is_article_image (src : option string) : option string :=
  match src with
  | Some s =>
      if negb (String.eqb s "")
         && (contains "cdn-images-1.medium.com" s || contains "miro.medium.com" s)
         && negb (contains "w=40" s)
      then Some s else None
  | None => None
  end.

Definition count_images (page : soup) (ad : article_data) : article_data :=
  let article_images := omap is_article_image (img_srcs page) in
  let ad := <["No. of images" := PInt (Z.of_nat (length article_images))]> ad in
  <["Image URLs" := PStr (join_strings ", " article_images)]> ad.

(** Line 129: the test on one link's domain. *)
Definition is_external (article_domain link_domain : string) : bool :=
  negb (String.eqb link_domain "")
  && negb (String.eqb link_domain article_domain
           || endswith link_domain ".medium.com"
           || endswith link_domain "towardsdatascience.com").

(** Lines 125 to 130: the loop over the anchors, with its counter. *)
Fixpoint count_links (B : builtins) (article_domain : string) (hrefs : list string)
    (external_links : Z) : outcome Z :=
  match hrefs with
  | [] => Returned external_links
  | href :: hrefs' =>
      link_domain <- urlparse_netloc B href ;;
      count_links B article_domain hrefs'
        (if is_external article_domain link_domain
         then external_links + 1 else external_links)
  end.

(** Lines 123 to 131. *)
Definition count_external_links (B : builtins) (page : soup) (url : string)
  : outcome Z :=
  article_domain <- urlparse_netloc B url ;;
  count_links B article_domain (a_hrefs page) 0.

(** The dict [final_result], one field per key. *)
Record article : Type := Article {
  URL : string;
  Title : pyval;
  Subtitle : pyval;
  Text : pyval;
  No_of_images : pyval;
  Image_URLs : pyval;
  No_of_external_links : pyval;
  Author_Name : pyval;
  Author_URL : pyval;
  Claps : pyval;
  Reading_Time : string;
  Keywords : string
}.

(** Line 146. *)
Definition format_reading_time (B : builtins) (ad : article_data) : outcome string :=
  if truthy (dict_get ad "Reading Time" PNone) then
    minutes <- py_int B (dict_get ad "Reading Time" (PInt 0)) ;;
    Returned (pretty minutes +:+ " min")
  else Returned "N/A".

(** Line 147. *)
Definition format_keywords (ad : article_data) : outcome string :=
  items <- py_iter (dict_get ad "Keywords" (PList [])) ;;
  py_join ", " items.

(** Lines 135 to 148. *)
Definition final_result (B : builtins) (url : string) (ad : article_data)
  : outcome article :=
  reading_time <- format_reading_time B ad ;;
  keywords <- format_keywords ad ;;
  Returned {|
    URL := url;
    Title := dict_get ad "Title" (PStr "N/A");
    Subtitle := dict_get ad "Subtitle" (PStr "N/A");
    Text := dict_get ad "Text" (PStr "N/A");
    No_of_images := dict_get ad "No. of images" (PInt 0);
    Image_URLs := dict_get ad "Image URLs" (PStr "N/A");
    No_of_external_links := dict_get ad "No. of external links" (PInt 0);
    Author_Name := dict_get ad "Author Name" (PStr "N/A");
    Author_URL := dict_get ad "Author URL" (PStr "N/A");
    Claps := dict_get ad "Claps" (PInt 0);
    Reading_Time := reading_time;
    Keywords := keywords
  |}.

(** [article_data] after the structured layer and the title and subtitle
    fallbacks (lines 48 to 103). *)
Definition after_headings (B : builtins) (page : soup) (url : string) : article_data :=
  subtitle_fallback page (title_fallback page (json_layer B page {["URL" := PStr url]})).

(** Lines 47 to 150: the function from the parsed page on. *)
Definition extract_from_soup (B : builtins) (page : soup) (url : string)
  : outcome article :=
  ad <- text_fallback page (after_headings B page url) ;;
  let ad := count_images page ad in
  external_links <- count_external_links B page url ;;
  let ad := <["No. of external links" := PInt external_links]> ad in
  final_result B url ad.

(** [extract_medium_data(url)]: fetch, parse, extract.  [not response] is
    [not response.ok]. *)
Definition extract_medium_data (B : builtins) (html_parser : string -> soup)
    (net : network) (url : string) : outcome (option article) * list event :=
  let '(response, tr) := fetch_url net 3 in
  match response with
  | None => (Returned None, tr)
  | Some r =>
      if raise_for_status r then (Returned None, tr)
      else (a <- extract_from_soup B (html_parser (text r)) url ;; Returned (Some a), tr)
  end.

(** *** Reference builtins

    Small executable stand-ins for the library functions, enough to run the
    model on plain inputs: decimal integers for [int], and for
    [urlparse(s).netloc] the text between a leading [scheme://] (or [//])
    and the next [/], [?] or [#], with [ValueError] on an unmatched square
    bracket. *)

Definition is_digit (c : ascii) : bool :=
  (48 <=? nat_of_ascii c)%nat && (nat_of_ascii c <=? 57)%nat.

Definition is_alpha (c : ascii) : bool :=
  let n := nat_of_ascii c in
  ((65 <=? n) && (n <=? 90) || (97 <=? n) && (n <=? 122))%nat.

Fixpoint digits_value (s : string) (acc : Z) : option Z :=
  match s with
  | EmptyString => Some acc
  | String c s' =>
      if is_digit c
      then digits_value s' (10 * acc + (Z.of_nat (nat_of_ascii c) - 48))
      else None
  end.

Definition decimal_int (s : string) : option Z :=
  match s with
  | EmptyString => None
  | String "-" (String c s') => Z.opp <$> digits_value (String c s') 0
  | _ => digits_value s 0
  end.

Fixpoint scheme_rest (s : string) : option string :=
  match s with
  | EmptyString => None
  | String c s' =>
      if Ascii.eqb c ":" then Some s'
      else if is_alpha c || is_digit c || Ascii.eqb c "+" || Ascii.eqb c "-" || Ascii.eqb c "."
           then scheme_rest s' else None
  end.

Definition strip_scheme (url : string) : string :=
  match url with
  | String c _ =>
      if is_alpha c
      then match scheme_rest url with Some rest => rest | None => url end
      else url
  | EmptyString => url
  end.

Fixpoint until_delimiter (s : string) : string :=
  match s with
  | EmptyString => EmptyString
  | String c s' =>
      if Ascii.eqb c "/" || Ascii.eqb c "?" || Ascii.eqb c "#"
      then EmptyString else String c (until_delimiter s')
  end.

Definition simple_netloc (url : string) : outcome string :=
  match strip_scheme url with
  | String "/" (String "/" rest) =>
      let netloc := until_delimiter rest in
      if xorb (contains "[" netloc) (contains "]" netloc)
      then Raised ValueError else Returned netloc
  | _ => Returned ""
  end.

Definition reference_builtins : builtins :=
  {| py_repr := fun _ => "<repr>";
     int_of_str := decimal_int;
     urlparse_netloc := simple_netloc |}.

(** *** Vocabulary and fixtures of the properties *)

(** The attempt got an HTTP 403 response. *)
Definition forbidden (g : get_result) : Prop :=
  exists body, g = Got (Response 403 body).

(** The attempt timed out, met a network error, or got an HTTP error status
    other than 403. *)
Definition hard_failure (g : get_result) : Prop :=
  g = RequestException \/
  exists r, g = Got r /\ raise_for_status r = true /\ status_code r <> 403.

(** The attempt got a response that [raise_for_status] lets through. *)
Definition success (g : get_result) (r : response) : Prop :=
  g = Got r /\ raise_for_status r = false.

(** The events of [k] attempts answered by 403, from attempt [a] on. *)
Definition backoff_trace (a k : nat) : list event :=
  flat_map (fun j => [EvGet; EvSleep (5 * (Z.of_nat j + 1))]) (seq a k).

(** The scenario of the specification: 403, 403, then 200. *)
Definition net_403_403_200 : network :=
  fun k => match k with
           | 0%nat | 1%nat => Got (Response 403 "Forbidden")
           | _ => Got (Response 200 "<html><body>ok</body></html>")
           end.

Definition net_always_403 : network := fun _ => Got (Response 403 "Forbidden").

(** A 403, then a server error; and a timeout on the first attempt. *)
Definition net_403_then_500 : network :=
  fun k => match k with
           | 0%nat => Got (Response 403 "Forbidden")
           | _ => Got (Response 500 "Internal Server Error")
           end.

Definition net_timeout : network := fun _ => RequestException.

(** [article_data] when [final_result] is built. *)
Definition assembled (page : soup) (ad : article_data) (external_links : Z)
  : article_data :=
  <["No. of external links" := PInt external_links]> (count_images page ad).

(** The test of line 129, spelled out. *)
Definition counted (article_domain link_domain : string) : Prop :=
  link_domain <> "" /\ link_domain <> article_domain /\
  endswith link_domain ".medium.com" = false /\
  endswith link_domain "towardsdatascience.com" = false.

(** The claim's words.  A host is a subdomain of a domain when it ends with
    a dot followed by the domain; the looser reading also takes the domain
    itself. *)
Definition subdomain_of (domain host : string) : bool :=
  endswith host ("." +:+ domain).

Definition within_domain (domain host : string) : bool :=
  String.eqb host domain || subdomain_of domain host.

(** The claim's count, with either reading for [same_site]: the links whose
    host is not empty, differs from the article's host and is not a subdomain
    of medium.com or of towardsdatascience.com. *)
Definition claimed_external (same_site : string -> string -> bool)
    (article_domain link_domain : string) : bool :=
  negb (String.eqb link_domain "")
  && negb (String.eqb link_domain article_domain)
  && negb (same_site "medium.com" link_domain)
  && negb (same_site "towardsdatascience.com" link_domain).

Definition claimed_count (same_site : string -> string -> bool)
    (article_domain : string) (link_domains : list string) : Z :=
  Z.of_nat (length (List.filter (claimed_external same_site article_domain) link_domains)).

(** A Medium article with one link, to a host that only ends like the
    syndication partner's. *)
Definition lookalike_page : soup :=
  {| next_data_script := None;
     h1_text := Some "A story";
     h2_text := None;
     div_main_text := None;
     article_text := Some "A story. Read more.";
     body_text := Some "A story. Read more.";
     img_srcs := [];
     a_hrefs := ["https://nottowardsdatascience.com/more"] |}.

(** An article of the partner site with links of every kind. *)
Definition linked_page : soup :=
  {| next_data_script := None;
     h1_text := Some "Links";
     h2_text := Some "All kinds";
     div_main_text := Some "Links of all kinds";
     article_text := None;
     body_text := Some "Links of all kinds";
     img_srcs := [Some "https://miro.medium.com/max/800/1.png";
                  Some "https://miro.medium.com/fit/c/40/40/avatar.png?w=40";
                  Some "https://example.com/logo.png"; None];
     a_hrefs := ["https://example.com/a"; "/about"; "https://blog.medium.com/x";
                 "https://medium.com/y"; "https://towardsdatascience.com/z";
                 "https://github.com/repo"] |}.

(** The expected field, for a value the structured layer resolved: "N/A"
    for a falsy one, the truncated number of minutes for a positive float. *)
Definition formats_as (v : pyval) (s : string) : Prop :=
  (truthy v = false /\ s = "N/A") \/
  (exists q, v = PFloat q /\ (0 < q)%Q /\ s = pretty (Qtrunc q) +:+ " min").

(** The hydration data of a post with the given reading time. *)
Definition post_json (reading_time : pyval) : pyval :=
  PDict [("props", PDict [("pageProps", PDict [("post",
    PDict [("title", PStr "On reading");
           ("virtuals", PDict [("subtitle", PStr "How long it takes");
                               ("totalClapCount", PInt 12);
                               ("readingTime", reading_time);
                               ("tags", PList [PDict [("name", PStr "Reading")];
                                               PDict [("name", PStr "Time")]])]);
           ("creator", PDict [("name", PStr "Ann"); ("username", PStr "ann")]);
           ("content", PDict [("bodyModel", PDict [("paragraphs",
              PList [PDict [("text", PStr "First.")];
                     PDict [("text", PStr "Second.")]])])])])])])].

Definition post_page (reading_time : pyval) : soup :=
  {| next_data_script := Some (Loaded (post_json reading_time));
     h1_text := Some "On reading";
     h2_text := None;
     div_main_text := None;
     article_text := None;
     body_text := None;
     img_srcs := [Some "https://miro.medium.com/max/800/r.png"];
     a_hrefs := ["https://example.com/a"] |}.

(** The page [<h1>Hello</h1>]: no hydration script, no main content
    container, no body element. *)
Definition page_without_body : soup :=
  {| next_data_script := None;
     h1_text := Some "Hello";
     h2_text := None;
     div_main_text := None;
     article_text := None;
     body_text := None;
     img_srcs := [];
     a_hrefs := [] |}.

(** A page whose post object has a title and nothing else. *)
Definition page_without_claps : soup :=
  {| next_data_script := Some (Loaded
       (PDict [("props", PDict [("pageProps", PDict [("post",
          PDict [("title", PStr "Untitled")])])])]));
     h1_text := Some "Untitled";
     h2_text := None;
     div_main_text := None;
     article_text := Some "Some text";
     body_text := Some "Some text";
     img_srcs := [];
     a_hrefs := [] |}.

Definition net_200 (body : string) : network := fun _ => Got (Response 200 body).

(** *** scrape_urls_to_csv *)

(** [c.isspace()] for a character below 256. *)
Definition is_space (c : ascii) : bool :=
  let n := nat_of_ascii c in
  ((9 <=? n) && (n <=? 13) || (28 <=? n) && (n <=? 32)
   || (n =? 133) || (n =? 160))%nat.

Fixpoint lstrip (s : string) : string :=
  match s with
  | EmptyString => EmptyString
  | String c s' => if is_space c then lstrip s' else s
  end.

Fixpoint rstrip (s : string) : string :=
  match s with
  | EmptyString => EmptyString
  | String c s' =>
      match rstrip s' with
      | EmptyString => if is_space c then EmptyString else String c EmptyString
      | r => String c r
      end
  end.

(** [s.strip()]. *)
Definition strip (s : string) : string := rstrip (lstrip s).

(** Line 161: the URLs of the file, one per line that is not blank. *)
Definition read_urls (lines : list string) : list string :=
  omap (fun line => if String.eqb (strip line) "" then None else Some (strip line)) lines.

(** The web the crawl meets: [web i url] is the network that the fetch of
    the [i]-th URL of the list (from 0), asking for [url], goes through. *)
Definition web : Type := nat -> string -> network.

(** Lines 168 to 178: the loop over the URLs, from the [i]-th on, with the
    list [results] so far.  An exception of [extract_medium_data] is not
    caught: it ends the loop. *)
Fixpoint scrape_loop (B : builtins) (html_parser : string -> soup) (w : web)
    (i : nat) (urls : list string) (results : list article)
  : outcome (list article) * list event :=
  match urls with
  | [] => (Returned results, [])
  | url :: urls' =>
      let '(data, tr) := extract_medium_data B html_parser (w i url) url in
      match data with
      | Raised e => (Raised e, tr)
      | Returned data =>
          let results :=
            match data with
            | Some a => results ++ [a]
            | None => results
            end in
          let '(res, tr') := scrape_loop B html_parser w (S i) urls' results in
          (res, tr ++ EvSleep 10 :: tr')
      end
  end.

(** What a run of [scrape_urls_to_csv] leaves: a message and no file, or the
    rows written to the output file. *)
Inductive crawl_report : Type :=
| UrlFileNotFound
| UrlFileEmpty
| NothingScraped
| Saved (rows : list article).

(** [scrape_urls_to_csv()]: [urls_file] holds the lines of the URL file,
    [None] when the file does not exist. *)
Definition scrape_urls_to_csv (B : builtins) (html_parser : string -> soup)
    (w : web) (urls_file : option (list string))
  : outcome crawl_report * list event :=
  match urls_file with
  | None => (Returned UrlFileNotFound, [])
  | Some lines =>
      match read_urls lines with
      | [] => (Returned UrlFileEmpty, [])
      | urls =>
          let '(res, tr) := scrape_loop B html_parser w 0 urls [] in
          (match res with
           | Returned [] => Returned NothingScraped
           | Returned results => Returned (Saved results)
           | Raised e => Raised e
           end, tr)
      end
  end.

(** *** Vocabulary and fixtures of the further properties *)

(** The back-off schedule: 5, 10, 15, ... for the attempts from [a] on. *)
Definition schedule (a k : nat) : list Z :=
  map (fun j => 5 * (Z.of_nat j + 1)) (seq a k).

Definition total (l : list Z) : Z := foldr Z.add 0 l.

(** The keys the structured layer writes. *)
Definition json_keys : list string :=
  ["Title"; "Subtitle"; "Claps"; "Reading Time"; "Keywords";
   "Author Name"; "Author URL"; "Text"].

(** What the structured layer leaves behind, relative to the dict it
    started from: the author's name and URL are stored together, the URL with
    its fixed base; the text, when stored, is a string; the keywords a list;
    no other key than its own is touched. *)
Record structured (B : builtins) (ad ad' : article_data) : Prop := {
  structured_author :
    (ad' !! "Author Name" = ad !! "Author Name" /\
     ad' !! "Author URL" = ad !! "Author URL") \/
    (exists name username,
       ad' !! "Author Name" = Some name /\
       ad' !! "Author URL" =
         Some (PStr ("https://medium.com/@" +:+ py_str B username)));
  structured_text :
    ad' !! "Text" = ad !! "Text" \/ exists s, ad' !! "Text" = Some (PStr s);
  structured_keywords :
    ad' !! "Keywords" = ad !! "Keywords" \/
    exists l, ad' !! "Keywords" = Some (PList l);
  structured_other :
    forall k, k ∉ json_keys -> ad' !! k = ad !! k
}.

(** The text the HTML layer finds: the main container, else the article
    element, else the first 500 characters of the body and an ellipsis. *)
Definition html_text (page : soup) : option string :=
  match div_main_text page with
  | Some t => Some t
  | None =>
      match article_text page with
      | Some t => Some t
      | None =>
          match body_text page with
          | Some b => Some (String.substring 0 500 b +:+ "...")
          | None => None
          end
      end
  end.

(** A heading's text, or the sentinel. *)
Definition heading (h : option string) : pyval :=
  PStr (match h with Some t => t | None => "N/A" end).

(** The value of a field resolved by two layers: the stored one when it is
    truthy, the fallback otherwise. *)
Definition layered (stored : option pyval) (fallback : pyval) : pyval :=
  match stored with
  | Some v => if truthy v then v else fallback
  | None => fallback
  end.

(** The keys written after the structured layer. *)
Definition html_keys : list string :=
  ["Title"; "Subtitle"; "Text"; "No. of images"; "Image URLs";
   "No. of external links"].

(** The images kept on a page. *)
Definition article_images (page : soup) : list string :=
  omap is_article_image (img_srcs page).

(** The article of a page that has no usable structured data. *)
Definition html_article (page : soup) (url : string) (t : string)
    (external_links : Z) : article :=
  {| URL := url;
     Title := heading (h1_text page);
     Subtitle := heading (h2_text page);
     Text := PStr t;
     No_of_images := PInt (Z.of_nat (length (article_images page)));
     Image_URLs := PStr (join_strings ", " (article_images page));
     No_of_external_links := PInt external_links;
     Author_Name := PStr "N/A";
     Author_URL := PStr "N/A";
     Claps := PInt 0;
     Reading_Time := "N/A";
     Keywords := "" |}.

(** The page has no hydration script, or one whose content does not load. *)
Definition no_structured_data (page : soup) : Prop :=
  next_data_script page = None \/ next_data_script page = Some LoadsRaised.

(** A page with structured data that carries no body paragraphs, and with
    no HTML container either. *)
Definition page_with_empty_post : soup :=
  {| next_data_script := Some (Loaded
       (PDict [("props", PDict [("pageProps", PDict [("post",
          PDict [("title", PStr "Short"); ("virtuals", PDict [])])])])]));
     h1_text := Some "Short";
     h2_text := None;
     div_main_text := None;
     article_text := None;
     body_text := None;
     img_srcs := [Some "https://miro.medium.com/max/800/s.png"];
     a_hrefs := ["https://example.com/a"] |}.

(** The outcome of each URL of the list, the [i]-th and on. *)
Definition extractions (B : builtins) (html_parser : string -> soup) (w : web)
    (i : nat) (urls : list string) : list (outcome (option article)) :=
  imap (fun j url => fst (extract_medium_data B html_parser (w (i + j)%nat url) url)) urls.

Definition newline : string := String (ascii_of_nat 10) EmptyString.

(** A parser that knows two pages. *)
Definition toy_parser (markup : string) : soup :=
  if String.eqb markup "<h1>Hello</h1>" then page_without_body else linked_page.

(** The first URL answers at once, the second times out, the third answers
    after two 403s, the fourth answers with a page that has no body. *)
Definition toy_web : web :=
  fun i _ =>
    match i with
    | 0%nat => net_200 "<div role=main>Links of all kinds</div>"
    | 1%nat => net_timeout
    | 2%nat => net_403_403_200
    | _ => net_200 "<h1>Hello</h1>"
    end.

Definition three_urls : list string :=
  ["https://towardsdatascience.com/p/links-1" +:+ newline;
   newline;
   "  https://medium.com/p/2  " +:+ newline;
   "https://medium.com/p/3"].

Definition four_urls : list string :=
  three_urls ++ [newline +:+ "https://medium.com/p/4" +:+ newline].

End Scraper.

(** ** src/api.py *)

Module Api.

Local Open Scope py_scope.

(** *** The snapshot and the data frame *)

(** A cell of the [Claps] column of the snapshot, by what
    [pd.to_numeric(..., errors='coerce')] makes of it. *)
Inductive cell : Type :=
| CInt (z : Z)        (* an integer *)
| CFloat (q : Q)      (* a finite number written with a fraction or exponent *)
| CInfinite           (* inf or -inf *)
| CText (s : string)  (* text that is not a number *)
| CMissing.           (* an empty field *)

(** A row of [scrapping_results.csv] as [pd.read_csv] gives it; a missing
    text field is NaN, here [None]. *)
Record raw_row : Type := RawRow {
  raw_Title : option string;
  raw_Subtitle : option string;
  raw_Text : option string;
  raw_Keywords : option string;
  raw_URL : option string;
  raw_Claps : cell
}.

(** A row of the global [df] after loading. *)
Record row : Type := Row {
  Title : option string;
  URL : option string;
  Claps : Z;
  search_corpus : string
}.

(** A float64 value of the coerced column. *)
Inductive float64 : Type :=
| Finite (q : Q)
| NaN
| Infinite.

Definition to_numeric_coerce (c : cell) : float64 :=
  match c with
  | CInt z => Finite (inject_Z z)
  | CFloat q => Finite q
  | CInfinite => Infinite
  | CText _ => NaN
  | CMissing => NaN
  end.

Definition fillna (value : Q) (x : float64) : float64 :=
  match x with
  | NaN => Finite value
  | _ => x
  end.

(** [.astype(int)]: a finite value is truncated toward zero (the values are
    taken within the int64 range, outside of which the result of the cast is
    platform-defined); a non-finite value makes the whole conversion raise. *)
Definition astype_int (xs : list float64) : outcome (list Z) :=
  comprehension (fun x => match x with
                          | Finite q => Returned (Qtrunc q)
                          | NaN | Infinite => Raised IntCastingNaNError
                          end) xs.

(** Line 41. *)
Definition coerce_claps (cells : list cell) : outcome (list Z) :=
  astype_int (map (fun c => fillna 0 (to_numeric_coerce c)) cells).

(** [s.fillna('')] on a text field. *)
Definition fillna_str (s : option string) : string :=
  match s with
  | Some t => t
  | None => ""
  end.

(** Lines 31 to 34. *)
Definition make_search_corpus (r : raw_row) : string :=
  fillna_str (raw_Title r) +:+ " " +:+ fillna_str (raw_Subtitle r) +:+ " " +:+
  fillna_str (raw_Text r) +:+ " " +:+ fillna_str (raw_Keywords r).

(** A fitted [TfidfVectorizer]: what [transform([query])] gives, as a dense
    vector over the vocabulary. *)
Definition vectorizer : Type := string -> list Q.

(** [TfidfVectorizer(stop_words='english').fit_transform], taken as given: it
    raises (an empty vocabulary) or gives the fitted vectorizer and the
    matrix, one weight vector per document. *)
Definition fitter : Type := list string -> outcome (vectorizer * list (list Q)).

(** The module's global variables. *)
Record globals : Type := Globals {
  df : option (list row);
  tfidf_vectorizer : option vectorizer;
  tfidf_matrix : option (list (list Q))
}.

Definition initial_globals : globals :=
  {| df := None; tfidf_vectorizer := None; tfidf_matrix := None |}.

(** [load_data_and_prepare_model()]: [file] is the content of
    [scrapping_results.csv], [None] when the file does not exist. *)
Definition load_data_and_prepare_model (fit_transform : fitter)
    (file : option (list raw_row)) (g : globals) : outcome (bool * globals) :=
  match file with
  | None => Returned (false, g)
  | Some rows =>
      let corpus := map make_search_corpus rows in
      fitted <- fit_transform corpus ;;
      claps <- coerce_claps (map raw_Claps rows) ;;
      let frame :=
        zip_with (fun r c => {| Title := raw_Title r; URL := raw_URL r; Claps := c;
                                search_corpus := make_search_corpus r |}) rows claps in
      Returned (true, {| df := Some frame;
                         tfidf_vectorizer := Some (fst fitted);
                         tfidf_matrix := Some (snd fitted) |})
  end.

(** *** search_articles *)

(** The product of two vectors of one dimension; [linear_kernel] raises on
    vectors of different dimensions. *)
Fixpoint dot (u v : list Q) : outcome Q :=
  match u, v with
  | [], [] => Returned 0%Q
  | x :: u', y :: v' => s <- dot u' v' ;; Returned (x * y + s)%Q
  | _, _ => Raised ValueError
  end.

(** [linear_kernel(query_vec, tfidf_matrix).flatten()]. *)
Definition linear_kernel (query_vec : list Q) (matrix : list (list Q))
  : outcome (list Q) :=
  comprehension (fun weights => dot query_vec weights) matrix.

(** The value of a signed 64-bit integer operation whose exact result is
    [z]: numpy wraps around on overflow. *)
Definition wrap64 (z : Z) : Z := (z + 2 ^ 63) mod 2 ^ 64 - 2 ^ 63.

(** [Series.min()] and [Series.max()]; NaN, here [None], on an empty series. *)
Definition series_min (l : list Z) : option Z :=
  match l with
  | [] => None
  | x :: l' => Some (fold_left Z.min l' x)
  end.

Definition series_max (l : list Z) : option Z :=
  match l with
  | [] => None
  | x :: l' => Some (fold_left Z.max l' x)
  end.

(** Lines 72 to 78.  After [.astype(int)] the column and its minimum and
    maximum are int64: both subtractions are 64-bit and wrap around; the
    division is the true division of the two differences. *)
Definition normalized_claps (d : list row) : list Q :=
  let claps := map Claps d in
  match series_min claps, series_max claps with
  | Some min_claps, Some max_claps =>
      if max_claps >? min_claps then
        map (fun c => (inject_Z (wrap64 (c - min_claps))
                       / inject_Z (wrap64 (max_claps - min_claps)))%Q) claps
      else replicate (length d) (1 # 2)%Q
  | _, _ => replicate (length d) (1 # 2)%Q
  end.

(** Line 82: array plus series, element by element; the lengths must agree. *)
Definition weighted_score (cosine_similarities normalized : list Q)
  : outcome (list Q) :=
  if (length cosine_similarities =? length normalized)%nat then
    Returned (zip_with (fun s c => ((7 # 10) * s + (3 # 10) * c)%Q)
                       cosine_similarities normalized)
  else Raised ValueError.

(** [Series.argsort()], taken as given: the positions of the values in an
    ascending order.  The order of equal values is not specified. *)
Record sorter : Type := Sorter {
  argsort : list Q -> list nat;
  argsort_Permutation : forall l, Permutation (argsort l) (seq 0 (length l));
  argsort_ascending : forall l,
    StronglySorted (fun i j => (nth i l 0 <= nth j l 0)%Q) (argsort l)
}.

(** [xs[start:]] with Python's reading of a negative [start]. *)
Definition slice_from {A} (start : Z) (xs : list A) : list A :=
  let n := Z.of_nat (length xs) in
  drop (Z.to_nat (if start <? 0 then Z.max (n + start) 0 else Z.min start n)) xs.

(** Rounding to the nearest integer, ties to even. *)
Definition round_half_even (q : Q) : Z :=
  let f := Qfloor q in
  match ((q - inject_Z f) ?= (1 # 2))%Q with
  | Lt => f
  | Gt => f + 1
  | Eq => if Z.even f then f else f + 1
  end.

(** [round(x, 4)]. *)
Definition round4 (q : Q) : Q :=
  (inject_Z (round_half_even (q * 10000)) / 10000)%Q.

Record scored_article : Type := ScoredArticle {
  res_Title : option string;
  res_URL : option string;
  res_Claps : Z;
  res_Relevance_Score : Q
}.

(** What the endpoint returns. *)
Inductive payload : Type :=
| ErrorPayload (error : string)
| Results (results : list scored_article).

(** Lines 90 to 95: one entry of [results]. *)
Definition format_result (d : list row) (final_score : list Q) (i : nat)
  : outcome scored_article :=
  match d !! i, final_score !! i with
  | Some r, Some score =>
      Returned {| res_Title := Title r; res_URL := URL r; res_Claps := Claps r;
                  res_Relevance_Score := round4 score |}
  | _, _ => Raised IndexError
  end.

(** Lines 64 to 82: the fused score of every row. *)
Definition final_scores (v : vectorizer) (matrix : list (list Q)) (d : list row)
    (query : string) : outcome (list Q) :=
  cosine_similarities <- linear_kernel (v query) matrix ;;
  weighted_score cosine_similarities (normalized_claps d).

(** Line 85. *)
Definition top_indices (S : sorter) (final_score : list Q) (top_n : Z) : list nat :=
  reverse (slice_from (- top_n) (argsort S final_score)).

(** [search_articles(query, top_n)]. *)
Definition search_articles (S : sorter) (g : globals) (query : string) (top_n : Z)
  : outcome payload :=
  match df g with
  | None => Returned (ErrorPayload "Data not loaded. Check if scrapping_results.csv exists.")
  | Some d =>
      match tfidf_vectorizer g, tfidf_matrix g with
      | Some v, Some matrix =>
          final_score <- final_scores v matrix d query ;;
          results <- comprehension (format_result d final_score)
                                   (top_indices S final_score top_n) ;;
          Returned (Results results)
      | _, _ => Raised AttributeError
      end
  end.

(** *** Vocabulary and fixtures of the properties *)

(** What line 41 makes of one cell. *)
Definition coerced (c : cell) (claps : Z) : Prop :=
  match c with
  | CInt z => claps = z
  | CFloat q => claps = Qtrunc q
  | CText _ | CMissing => claps = 0
  | CInfinite => False
  end.

(** The cell is text, empty, or a finite number within the int64 range. *)
Definition castable (c : cell) : Prop :=
  match c with
  | CInt z => - 2 ^ 63 <= z < 2 ^ 63
  | CFloat q => - 2 ^ 63 <= Qtrunc q < 2 ^ 63
  | CText _ | CMissing => True
  | CInfinite => False
  end.

(** A sort of the positions by ascending value (merge sort). *)
Definition score_le (l : list Q) (i j : nat) : Prop := (nth i l 0 <= nth j l 0)%Q.

(** A toy vectorizer over the vocabulary "python", "rust": weight 1 for a
    term the text contains, 0 otherwise. *)
Definition indicator (text : string) : list Q :=
  [if contains "python" text then 1%Q else 0%Q;
   if contains "rust" text then 1%Q else 0%Q].

Definition indicator_fitter : fitter :=
  fun corpus => Returned (indicator, map indicator corpus).

(** A snapshot of three articles with claps 0, 50 and 100. *)
Definition snapshot_0_50_100 : list raw_row :=
  [ {| raw_Title := Some "Cooking"; raw_Subtitle := None; raw_Text := Some "soup";
       raw_Keywords := Some "food"; raw_URL := Some "https://medium.com/p/1";
       raw_Claps := CInt 0 |};
    {| raw_Title := Some "Snakes"; raw_Subtitle := Some "and code";
       raw_Text := Some "python everywhere"; raw_Keywords := None;
       raw_URL := Some "https://medium.com/p/2"; raw_Claps := CInt 50 |};
    {| raw_Title := Some "Metal"; raw_Subtitle := None; raw_Text := Some "rust never sleeps";
       raw_Keywords := Some "rust"; raw_URL := Some "https://medium.com/p/3";
       raw_Claps := CInt 100 |} ].

(** A snapshot whose claps are text, empty, fractional and negative. *)
Definition snapshot_odd_claps : list raw_row :=
  map (fun c => {| raw_Title := Some "T"; raw_Subtitle := None; raw_Text := None;
                   raw_Keywords := None; raw_URL := None; raw_Claps := c |})
      [CInt 50; CText "many"; CMissing; CFloat (79 # 10); CInt (-5)].

Definition loaded (file : list raw_row) : globals :=
  match load_data_and_prepare_model indicator_fitter (Some file) initial_globals with
  | Returned (_, g) => g
  | Raised _ => initial_globals
  end.


(** A corpus whose claps span the whole 64-bit range: -2^62, 0, 2^62. *)
Definition wide_claps : list row :=
  map (fun c => {| Title := None; URL := None; Claps := c; search_corpus := "" |})
      [- 2 ^ 62; 0; 2 ^ 62].

(** The index is fitted on the loaded data frame: one weight vector per
    row, each of the dimension of the query vectors. *)
Definition fitted (g : globals) (d : list row) (v : vectorizer)
    (matrix : list (list Q)) : Prop :=
  df g = Some d /\ tfidf_vectorizer g = Some v /\ tfidf_matrix g = Some matrix /\
  length matrix = length d /\
  forall query, Forall (fun weights => length weights = length (v query)) matrix.

(** *** health_check *)

Record health : Type := Health {
  status : string;
  data_loaded : bool;
  article_count : nat
}.

(** [health_check()]. *)
Definition health_check (g : globals) : health :=
  {| status := "ok";
     data_loaded := match df g with Some _ => true | None => false end;
     article_count := match df g with Some d => length d | None => 0%nat end |}.

(** *** Vocabulary and fixtures of the further properties *)

(** A row of the data frame comes from a row of the snapshot. *)
Definition loaded_from (r : raw_row) (x : row) : Prop :=
  Title x = raw_Title r /\ URL x = raw_URL r /\ coerced (raw_Claps r) (Claps x) /\
  search_corpus x = make_search_corpus r.

(** The vectorizer gives one weight vector per document, each of the
    dimension of its query vectors. *)
Definition well_fitted (n : nat) (fitted : vectorizer * list (list Q)) : Prop :=
  length (snd fitted) = n /\
  forall query, Forall (fun weights => length weights = length (fst fitted query))
                       (snd fitted).

(** The data frame and the matrix of the three-article snapshot. *)
Definition frame_0_50_100 : list row :=
  default [] (df (loaded snapshot_0_50_100)).

Definition matrix_0_50_100 : list (list Q) :=
  map indicator (map make_search_corpus snapshot_0_50_100).

End Api.

(** * Properties *)

(** ** The model on small inputs *)

Section Examples.
Import Scraper Api.

Example endswith_examples :
  endswith "blog.medium.com" ".medium.com" = true /\
  endswith "medium.com" ".medium.com" = false /\
  endswith "towardsdatascience.com" "towardsdatascience.com" = true /\
  endswith "example.com" "" = true.
Proof. repeat split. Qed.

Example contains_examples :
  contains "w=40" "https://miro.medium.com/a.png?w=40&q=1" = true /\
  contains "miro.medium.com" "https://cdn.example.com/a.png" = false /\
  contains "" "" = true.
Proof. repeat split. Qed.

Example simple_netloc_examples :
  simple_netloc "https://medium.com/@ann/post" = Returned "medium.com" /\
  simple_netloc "//cdn.example.com:8080/x?y#z" = Returned "cdn.example.com:8080" /\
  simple_netloc "/about" = Returned "" /\
  simple_netloc "mailto:ann@example.com" = Returned "" /\
  simple_netloc "http://[::1/x" = Raised ValueError.
Proof. repeat split. Qed.

Example py_eq_examples :
  py_eq (PInt 1) (PFloat 1) = true /\
  py_eq (PBool true) (PInt 1) = true /\
  py_eq (PStr "1") (PInt 1) = false /\
  py_eq PNaN PNaN = false /\
  py_eq (PList [PNaN]) (PList [PNaN]) = true /\
  py_eq (PDict [("a", PInt 1); ("b", PNone)]) (PDict [("b", PNone); ("a", PInt 1)]) = true.
Proof. repeat split. Qed.

Example py_int_examples :
  py_int reference_builtins (PFloat (57 # 10)) = Returned 5 /\
  py_int reference_builtins (PFloat (- 57 # 10)) = Returned (-5) /\
  py_int reference_builtins (PStr "12") = Returned 12 /\
  py_int reference_builtins (PStr "soon") = Raised ValueError /\
  py_int reference_builtins (PList []) = Raised TypeError /\
  py_int reference_builtins (PInf false) = Raised OverflowError.
Proof. repeat split. Qed.

(** An exception in the middle of the [try] block keeps what was stored
    before it: here [virtuals] is a list, the title is kept. *)
Example structured_layer_stops_at_exception :
  structured_layer reference_builtins
    (PDict [("props", PDict [("pageProps", PDict [("post",
       PDict [("title", PStr "Kept"); ("virtuals", PList [])])])])])
    {["URL" := PStr "u"]}
  = {["URL" := PStr "u"; "Title" := PStr "Kept"]}.
Proof. vm_compute. reflexivity. Qed.

Example slice_from_examples :
  slice_from (-2) [10; 20; 30] = [20; 30] /\
  slice_from (-5) [10; 20; 30] = [10; 20; 30] /\
  slice_from 0 [10; 20; 30] = [10; 20; 30] /\
  slice_from 1 [10; 20; 30] = [20; 30].
Proof. repeat split. Qed.

Example round4_examples :
  (round4 (123456 # 1000000) == 1235 # 10000)%Q /\
  (round4 (25 # 100000) == 2 # 10000)%Q /\
  (round4 (35 # 100000) == 4 # 10000)%Q /\
  (round4 (- 12345 # 100000) == - 1234 # 10000)%Q.
Proof. repeat split. Qed.

Example wrap64_examples :
  wrap64 (2 ^ 63) = - 2 ^ 63 /\ wrap64 (2 ^ 63 - 1) = 2 ^ 63 - 1 /\
  wrap64 (- 2 ^ 63 - 1) = 2 ^ 63 - 1 /\ wrap64 100 = 100.
Proof. repeat split. Qed.

Example coerce_claps_examples :
  coerce_claps [CInt 12; CText "1.2K"; CMissing; CFloat (- 5 # 2)] = Returned [12; 0; 0; -2] /\
  coerce_claps [CInt 12; CInfinite] = Raised IntCastingNaNError.
Proof. repeat split. Qed.

End Examples.

(** ** The fetcher *)

Section Fetcher.
Import Scraper.

Lemma fetch_loop_forbidden net a rem :
  forbidden (net a) ->
  fetch_loop net a (S rem) =
    (fst (fetch_loop net (S a) rem),
     EvGet :: EvSleep (5 * (Z.of_nat a + 1)) :: snd (fetch_loop net (S a) rem)).
Proof.
  intros [body Hg]. simpl. rewrite Hg. simpl.
  destruct (fetch_loop net (S a) rem) as [res tr]. reflexivity.
Qed.

Lemma fetch_loop_hard_failure net a rem :
  hard_failure (net a) -> fetch_loop net a (S rem) = (None, [EvGet]).
Proof.
  intros [Hg | (r & Hg & Hraise & Hcode)]; simpl; rewrite Hg.
  - reflexivity.
  - rewrite Hraise. apply Z.eqb_neq in Hcode. rewrite Hcode. reflexivity.
Qed.

Lemma fetch_loop_success net a rem r :
  success (net a) r -> fetch_loop net a (S rem) = (Some r, [EvGet]).
Proof. intros [Hg Hraise]. simpl. rewrite Hg, Hraise. reflexivity. Qed.

(** A run of [k] forbidden attempts is skipped with its back-off delays. *)
Lemma fetch_loop_skip net k : forall a rem,
  (forall j, (a <= j < a + k)%nat -> forbidden (net j)) ->
  fetch_loop net a (k + rem) =
    (fst (fetch_loop net (a + k) rem),
     backoff_trace a k ++ snd (fetch_loop net (a + k) rem)).
Proof.
  induction k as [|k IH]; intros a rem Hforb.
  - rewrite Nat.add_0_r. simpl. destruct (fetch_loop net a rem); reflexivity.
  - change (S k + rem)%nat with (S (k + rem)).
    rewrite fetch_loop_forbidden by (apply Hforb; lia).
    rewrite IH by (intros j Hj; apply Hforb; lia).
    replace (S a + k)%nat with (a + S k)%nat by lia.
    reflexivity.
Qed.

Lemma sleeps_backoff_trace a k :
  sleeps (backoff_trace a k) = map (fun j => 5 * (Z.of_nat j + 1)) (seq a k).
Proof.
  unfold backoff_trace. revert a.
  induction k as [|k IH]; intros a; simpl; [reflexivity|].
  f_equal. apply IH.
Qed.

Lemma sleeps_app tr1 tr2 : sleeps (tr1 ++ tr2) = sleeps tr1 ++ sleeps tr2.
Proof. unfold sleeps. apply omap_app. Qed.

Lemma requests_sent_app tr1 tr2 :
  requests_sent (tr1 ++ tr2) = (requests_sent tr1 + requests_sent tr2)%nat.
Proof. unfold requests_sent. rewrite omap_app, length_app. reflexivity. Qed.

Lemma requests_sent_backoff_trace a k : requests_sent (backoff_trace a k) = k.
Proof.
  unfold backoff_trace, requests_sent. revert a.
  induction k as [|k IH]; intros a; simpl; [reflexivity|].
  f_equal. apply IH.
Qed.

(** C5. When attempts 1 and 2 get HTTP 403 and attempt 3 succeeds,
    [fetch_url] with [max_retries = 3] sends three requests, sleeps 5 and
    then 10 seconds between them (5 times the attempt number) and returns
    the successful response.  When every one of the [max_retries] attempts
    gets 403, it returns [None] (failure), having slept 5, 10, ... after
    each attempt. *)
Theorem fetch_url_retries_on_403 (net : network) :
  (forall r, forbidden (net 0%nat) -> forbidden (net 1%nat) -> success (net 2%nat) r ->
     fetch_url net 3 = (Some r, [EvGet; EvSleep 5; EvGet; EvSleep 10; EvGet]) /\
     sleeps (snd (fetch_url net 3)) = [5; 10]) /\
  (forall max_retries,
     (forall k, Z.of_nat k < max_retries -> forbidden (net k)) ->
     fst (fetch_url net max_retries) = None /\
     requests_sent (snd (fetch_url net max_retries)) = Z.to_nat max_retries /\
     sleeps (snd (fetch_url net max_retries)) =
       map (fun j => 5 * (Z.of_nat j + 1)) (seq 0 (Z.to_nat max_retries))).
Proof.
  split.
  - intros r H0 H1 H2.
    assert (E : fetch_url net 3 = (Some r, [EvGet; EvSleep 5; EvGet; EvSleep 10; EvGet])).
    { unfold fetch_url. change (Z.to_nat 3) with (2 + 1)%nat.
      rewrite fetch_loop_skip.
      - rewrite (fetch_loop_success _ _ _ r) by exact H2. reflexivity.
      - intros j Hj. assert (j = 0 \/ j = 1)%nat as [-> | ->] by lia; assumption. }
    rewrite E. split; reflexivity.
  - intros max_retries Hall. unfold fetch_url.
    set (n := Z.to_nat max_retries).
    assert (E : fetch_loop net 0 n = (None, backoff_trace 0 n)).
    { replace n with (n + 0)%nat at 1 by lia.
      rewrite fetch_loop_skip.
      - simpl. rewrite app_nil_r. reflexivity.
      - intros j Hj. apply Hall. lia. }
    rewrite E. cbn [fst snd].
    rewrite requests_sent_backoff_trace, sleeps_backoff_trace. auto.
Qed.

(** C9. When an attempt ends in a timeout, a network error or an HTTP error
    status other than 403, [fetch_url] returns [None] (failure) at once: that
    request is the last event, no request and no sleep follows it.  The
    attempts before it, if any, were answered by 403 and backed off as
    usual; when it is the first attempt the whole run is the one request. *)
Theorem fetch_url_fails_without_retry (net : network) (max_retries : Z) (k : nat) :
  Z.of_nat k < max_retries ->
  (forall j, (j < k)%nat -> forbidden (net j)) ->
  hard_failure (net k) ->
  fetch_url net max_retries = (None, backoff_trace 0 k ++ [EvGet]) /\
  requests_sent (snd (fetch_url net max_retries)) = S k /\
  sleeps (snd (fetch_url net max_retries)) =
    map (fun j => 5 * (Z.of_nat j + 1)) (seq 0 k) /\
  (k = 0%nat -> fetch_url net max_retries = (None, [EvGet])).
Proof.
  intros Hk Hforb Hfail.
  assert (E : fetch_url net max_retries = (None, backoff_trace 0 k ++ [EvGet])).
  { unfold fetch_url.
    replace (Z.to_nat max_retries) with (k + S (Z.to_nat max_retries - S k))%nat by lia.
    rewrite fetch_loop_skip by (intros j Hj; apply Hforb; lia).
    change (0 + k)%nat with k.
    rewrite fetch_loop_hard_failure by exact Hfail. reflexivity. }
  rewrite E. cbn [fst snd]. repeat split.
  - rewrite requests_sent_app, requests_sent_backoff_trace. cbn. lia.
  - rewrite sleeps_app, sleeps_backoff_trace. apply app_nil_r.
  - intros ->. reflexivity.
Qed.

Lemma fetch_url_retries_on_403_witness :
  fetch_url net_403_403_200 3 =
    (Some (Response 200 "<html><body>ok</body></html>"),
     [EvGet; EvSleep 5; EvGet; EvSleep 10; EvGet]) /\
  fst (fetch_url net_always_403 3) = None /\
  sleeps (snd (fetch_url net_always_403 3)) = [5; 10; 15].
Proof.
  split.
  - apply (proj1 (fetch_url_retries_on_403 net_403_403_200)).
    + exists "Forbidden". reflexivity.
    + exists "Forbidden". reflexivity.
    + split; reflexivity.
  - destruct (proj2 (fetch_url_retries_on_403 net_always_403) 3) as (Hnone & _ & Hsleeps).
    + intros k _. exists "Forbidden". reflexivity.
    + split; [exact Hnone | exact Hsleeps].
Defined.

Lemma fetch_url_fails_without_retry_witness :
  fetch_url net_403_then_500 3 = (None, [EvGet; EvSleep 5; EvGet]) /\
  fetch_url net_timeout 3 = (None, [EvGet]).
Proof.
  split.
  - apply (fetch_url_fails_without_retry net_403_then_500 3 1).
    + lia.
    + intros j Hj. assert (j = 0%nat) as -> by lia. exists "Forbidden". reflexivity.
    + right. exists (Response 500 "Internal Server Error").
      split; [reflexivity | split; [reflexivity | discriminate]].
  - apply (fetch_url_fails_without_retry net_timeout 3 0).
    + lia.
    + intros j Hj. lia.
    + left. reflexivity.
    + reflexivity.
Defined.

End Fetcher.

(** ** The extractor *)

Section Extractor.
Import Scraper.

(** *** Strings *)

Lemma length_append (s t : string) :
  String.length (s +:+ t) = (String.length s + String.length t)%nat.
Proof. induction s as [|c s IH]; simpl; [reflexivity | now rewrite IH]. Qed.

Lemma substring_all (s : string) : substring 0 (String.length s) s = s.
Proof. induction s as [|c s IH]; simpl; [reflexivity | now rewrite IH]. Qed.

Lemma substring_append_r (p suffix : string) :
  substring (String.length p) (String.length suffix) (p +:+ suffix) = suffix.
Proof. induction p as [|c p IH]; simpl; [apply substring_all | exact IH]. Qed.

Lemma substring_split (s : string) : forall n, (n <= String.length s)%nat ->
  s = substring 0 n s +:+ substring n (String.length s - n) s.
Proof.
  induction s as [|c s IH]; intros [|n] Hn; simpl in *.
  - reflexivity.
  - lia.
  - now rewrite substring_all.
  - change (String c s = String c (substring 0 n s +:+ substring n (String.length s - n) s)).
    f_equal. apply IH. lia.
Qed.

(** [endswith] is the suffix test. *)
Lemma endswith_spec (s suffix : string) :
  endswith s suffix = true <-> exists p, s = p +:+ suffix.
Proof.
  unfold endswith. rewrite andb_true_iff, Nat.leb_le, String.eqb_eq. split.
  - intros [Hle Hsub].
    exists (substring 0 (String.length s - String.length suffix) s).
    pose proof (substring_split s (String.length s - String.length suffix)) as E.
    replace (String.length s - (String.length s - String.length suffix))%nat
      with (String.length suffix) in E by lia.
    rewrite Hsub in E. apply E. lia.
  - intros [p ->]. rewrite length_append. split; [lia|].
    replace (String.length p + String.length suffix - String.length suffix)%nat
      with (String.length p) by lia.
    apply substring_append_r.
Qed.

(** *** What the later steps leave untouched *)

Lemma title_fallback_lookup page (ad : article_data) k :
  k <> "Title" -> title_fallback page ad !! k = ad !! k.
Proof.
  intros Hk. unfold title_fallback.
  destruct (negb _); [|reflexivity]. now rewrite lookup_insert_ne.
Qed.

Lemma subtitle_fallback_lookup page (ad : article_data) k :
  k <> "Subtitle" -> subtitle_fallback page ad !! k = ad !! k.
Proof.
  intros Hk. unfold subtitle_fallback.
  destruct (negb _); [|reflexivity]. now rewrite lookup_insert_ne.
Qed.

Lemma text_fallback_lookup page (ad ad' : article_data) k :
  text_fallback page ad = Returned ad' -> k <> "Text" -> ad' !! k = ad !! k.
Proof.
  unfold text_fallback. intros H Hk.
  destruct (negb _).
  - destruct (match div_main_text page with Some t => Some t | None => article_text page end).
    + injection H as <-. now rewrite lookup_insert_ne.
    + destruct (body_text page); [|discriminate].
      injection H as <-. now rewrite lookup_insert_ne.
  - now injection H as <-.
Qed.

Lemma count_images_lookup page (ad : article_data) k :
  k <> "No. of images" -> k <> "Image URLs" ->
  count_images page ad !! k = ad !! k.
Proof.
  intros H1 H2. unfold count_images. now rewrite !lookup_insert_ne.
Qed.

Lemma assembled_lookup page (ad : article_data) n k :
  k <> "No. of images" -> k <> "Image URLs" -> k <> "No. of external links" ->
  assembled page ad n !! k = ad !! k.
Proof.
  intros H1 H2 H3. unfold assembled.
  rewrite lookup_insert_ne by congruence. now apply count_images_lookup.
Qed.

(** How a returned article was put together. *)
Lemma extract_from_soup_inv B page url a :
  extract_from_soup B page url = Returned a ->
  exists ad n,
    text_fallback page (after_headings B page url) = Returned ad /\
    count_external_links B page url = Returned n /\
    final_result B url (assembled page ad n) = Returned a.
Proof.
  unfold extract_from_soup. intros H.
  destruct (text_fallback page (after_headings B page url)) as [ad|e]; [|discriminate].
  simpl in H.
  destruct (count_external_links B page url) as [n|e]; [|discriminate].
  simpl in H. exists ad, n. auto.
Qed.

Lemma extract_from_soup_intro B page url ad n :
  text_fallback page (after_headings B page url) = Returned ad ->
  count_external_links B page url = Returned n ->
  extract_from_soup B page url = final_result B url (assembled page ad n).
Proof. unfold extract_from_soup. intros -> ->. reflexivity. Qed.

Lemma final_result_inv B url (ad : article_data) a :
  final_result B url ad = Returned a ->
  format_reading_time B ad = Returned (Reading_Time a) /\
  format_keywords ad = Returned (Keywords a) /\
  No_of_external_links a = dict_get ad "No. of external links" (PInt 0) /\
  Claps a = dict_get ad "Claps" (PInt 0).
Proof.
  unfold final_result. intros H.
  destruct (format_reading_time B ad) as [rt|e]; [|discriminate]. simpl in H.
  destruct (format_keywords ad) as [kw|e]; [|discriminate]. simpl in H.
  injection H as <-. simpl. auto.
Qed.

(** *** The external links *)

#[local] Instance counted_dec article_domain link_domain :
  Decision (counted article_domain link_domain).
Proof. unfold counted. apply _. Defined.

Lemma is_external_counted article_domain link_domain :
  is_external article_domain link_domain = true <-> counted article_domain link_domain.
Proof.
  unfold is_external, counted.
  rewrite andb_true_iff, !negb_true_iff, !orb_false_iff, !eqb_neq. tauto.
Qed.

Lemma count_links_filter B article_domain hrefs : forall link_domains acc,
  comprehension (urlparse_netloc B) hrefs = Returned link_domains ->
  count_links B article_domain hrefs acc =
    Returned (acc + Z.of_nat (length (filter (counted article_domain) link_domains))).
Proof.
  induction hrefs as [|href hrefs IH]; intros link_domains acc H; simpl in *.
  - injection H as <-. simpl. f_equal. lia.
  - destruct (urlparse_netloc B href) as [d|e]; [|discriminate].
    destruct (comprehension (urlparse_netloc B) hrefs) as [ds|e]; [|discriminate].
    injection H as <-. simpl. rewrite (IH ds) by reflexivity.
    rewrite filter_cons.
    destruct (is_external article_domain d) eqn:E.
    + apply is_external_counted in E. rewrite decide_True by exact E.
      simpl. f_equal. lia.
    + rewrite decide_False; [reflexivity|].
      intros C. apply is_external_counted in C. congruence.
Qed.

(** C6, the claim as stated fails, whichever way "subdomain" is read.
    The host nottowardsdatascience.com is not empty, is not the article's
    host and is a subdomain of neither domain, so the claim counts the link;
    the code does not, since the host ends with "towardsdatascience.com".
    With subdomains read strictly, the claim counts a link from a Medium
    article to towardsdatascience.com itself, and the code does not.  With
    a domain read as one of its own subdomains, the claim leaves out a link
    from a partner article to medium.com itself, and the code counts it. *)
Lemma external_link_count_counterexample :
  (urlparse_netloc reference_builtins "https://medium.com/@ann/a-story-1" =
     Returned "medium.com" /\
   comprehension (urlparse_netloc reference_builtins) (a_hrefs lookalike_page) =
     Returned ["nottowardsdatascience.com"] /\
   count_external_links reference_builtins lookalike_page
     "https://medium.com/@ann/a-story-1" = Returned 0 /\
   claimed_count subdomain_of "medium.com" ["nottowardsdatascience.com"] = 1 /\
   claimed_count within_domain "medium.com" ["nottowardsdatascience.com"] = 1) /\
  (is_external "medium.com" "towardsdatascience.com" = false /\
   claimed_external subdomain_of "medium.com" "towardsdatascience.com" = true) /\
  (is_external "towardsdatascience.com" "medium.com" = true /\
   claimed_external within_domain "towardsdatascience.com" "medium.com" = false).
Proof. repeat split; vm_compute; reflexivity. Qed.

(** C6, amended. [No. of external links] is the number of anchors whose
    netloc is not empty, differs from the netloc of the article's URL, does
    not end with ".medium.com" and does not end with
    "towardsdatascience.com" (plain suffix tests); it is not negative. *)
Theorem external_link_count_by_suffix (B : builtins) (page : soup) (url : string)
    (article_domain : string) (link_domains : list string) :
  urlparse_netloc B url = Returned article_domain ->
  comprehension (urlparse_netloc B) (a_hrefs page) = Returned link_domains ->
  let n := Z.of_nat (length (filter (counted article_domain) link_domains)) in
  count_external_links B page url = Returned n /\
  0 <= n /\
  forall a, extract_from_soup B page url = Returned a ->
            No_of_external_links a = PInt n.
Proof.
  intros Hurl Hlinks n.
  assert (E : count_external_links B page url = Returned n).
  { unfold count_external_links. rewrite Hurl. simpl.
    rewrite (count_links_filter _ _ _ link_domains) by exact Hlinks.
    reflexivity. }
  split; [exact E|]. split; [lia|].
  intros a Ha. apply extract_from_soup_inv in Ha as (ad & m & _ & Hm & Hfin).
  rewrite E in Hm. injection Hm as <-.
  apply final_result_inv in Hfin as (_ & _ & -> & _).
  unfold dict_get, assembled. now rewrite lookup_insert_eq.
Qed.

Lemma external_link_count_by_suffix_witness :
  count_external_links reference_builtins linked_page
    "https://towardsdatascience.com/p/links-1" = Returned 3 /\
  exists a, extract_from_soup reference_builtins linked_page
              "https://towardsdatascience.com/p/links-1" = Returned a /\
            No_of_external_links a = PInt 3.
Proof.
  destruct (external_link_count_by_suffix reference_builtins linked_page
              "https://towardsdatascience.com/p/links-1" "towardsdatascience.com"
              ["example.com"; ""; "blog.medium.com"; "medium.com";
               "towardsdatascience.com"; "github.com"])
    as (Hcount & _ & Hfield).
  - vm_compute. reflexivity.
  - vm_compute. reflexivity.
  - split; [exact Hcount|].
    destruct (extract_from_soup reference_builtins linked_page
                "https://towardsdatascience.com/p/links-1") as [a|e] eqn:E.
    + exists a. split; [reflexivity | apply Hfield; reflexivity].
    + vm_compute in E. discriminate E.
Defined.

(** *** The reading time *)

Lemma truthy_positive_float (q : Q) : (0 < q)%Q -> truthy (PFloat q) = true.
Proof.
  intros Hq. simpl. apply negb_true_iff.
  destruct (Qeq_bool q 0) eqn:E; [|reflexivity].
  apply Qeq_bool_iff in E. rewrite E in Hq. now apply Qlt_irrefl in Hq.
Qed.

Lemma format_reading_time_falsy B (ad : article_data) v :
  ad !! "Reading Time" = Some v -> truthy v = false ->
  format_reading_time B ad = Returned "N/A".
Proof.
  intros Hv Hfalsy. unfold format_reading_time, dict_get.
  now rewrite Hv, Hfalsy.
Qed.

Lemma format_reading_time_float B (ad : article_data) q :
  ad !! "Reading Time" = Some (PFloat q) -> (0 < q)%Q ->
  format_reading_time B ad = Returned (pretty (Qtrunc q) +:+ " min").
Proof.
  intros Hv Hq. unfold format_reading_time, dict_get.
  rewrite Hv, truthy_positive_float by exact Hq. reflexivity.
Qed.

(** Truncation toward zero rounds a positive number down. *)
Lemma Qtrunc_positive (q : Q) : (0 < q)%Q -> Qtrunc q = Qfloor q /\ 0 <= Qtrunc q.
Proof.
  destruct q as [n d]. unfold Qlt, Qtrunc, Qfloor. simpl. intros Hq.
  assert (0 <= n) by lia.
  rewrite Z.quot_div_nonneg by lia. split; [reflexivity|].
  apply Z.div_pos; lia.
Qed.

(** The reading time that reaches [final_result] is the one the structured
    layer stored. *)
Lemma reading_time_reaches_final B page url (ad : article_data) n :
  text_fallback page (after_headings B page url) = Returned ad ->
  assembled page ad n !! "Reading Time" =
    json_layer B page {["URL" := PStr url]} !! "Reading Time".
Proof.
  intros Htext.
  rewrite assembled_lookup by discriminate.
  rewrite (text_fallback_lookup _ _ _ _ Htext) by discriminate.
  unfold after_headings.
  rewrite subtitle_fallback_lookup by discriminate.
  now rewrite title_fallback_lookup by discriminate.
Qed.

(** C10. When the structured layer resolves a falsy reading time (0, 0.0,
    None, an empty string, ...), the article's reading time is "N/A", not
    "0 min"; when it resolves a positive fractional value, the value is
    truncated toward zero and the field is "<integer> min".  Formatting the
    field does not raise in these cases: the article is returned whenever the
    text fallback, the link count and the keywords go through. *)
Theorem reading_time_field (B : builtins) (page : soup) (url : string)
    (v : pyval) (s : string) :
  json_layer B page {["URL" := PStr url]} !! "Reading Time" = Some v ->
  formats_as v s ->
  (forall a, extract_from_soup B page url = Returned a -> Reading_Time a = s) /\
  (forall ad n kw,
     text_fallback page (after_headings B page url) = Returned ad ->
     count_external_links B page url = Returned n ->
     format_keywords (assembled page ad n) = Returned kw ->
     exists a, extract_from_soup B page url = Returned a /\ Reading_Time a = s).
Proof.
  intros Hv Hs.
  assert (Hfmt : forall ad n,
             text_fallback page (after_headings B page url) = Returned ad ->
             format_reading_time B (assembled page ad n) = Returned s).
  { intros ad n Htext.
    pose proof (reading_time_reaches_final B page url ad n Htext) as Hrt.
    rewrite Hv in Hrt.
    destruct Hs as [[Hfalsy ->] | (q & -> & Hq & ->)].
    - eapply format_reading_time_falsy; eassumption.
    - now apply format_reading_time_float. }
  split.
  - intros a Ha. apply extract_from_soup_inv in Ha as (ad & n & Htext & _ & Hfin).
    apply final_result_inv in Hfin as (Hrt & _).
    rewrite (Hfmt ad n Htext) in Hrt. now injection Hrt.
  - intros ad n kw Htext Hn Hkw.
    rewrite (extract_from_soup_intro B page url ad n Htext Hn).
    unfold final_result. rewrite (Hfmt ad n Htext), Hkw. simpl.
    eexists. split; reflexivity.
Qed.

Lemma reading_time_field_witness :
  (exists a, extract_from_soup reference_builtins (post_page (PInt 0))
               "https://medium.com/@ann/on-reading-1" = Returned a /\
             Reading_Time a = "N/A") /\
  (exists a, extract_from_soup reference_builtins (post_page (PFloat (571 # 100)))
               "https://medium.com/@ann/on-reading-1" = Returned a /\
             Reading_Time a = "5 min").
Proof.
  split.
  - apply (proj2 (reading_time_field reference_builtins (post_page (PInt 0))
                    "https://medium.com/@ann/on-reading-1" (PInt 0) "N/A"
                    eq_refl (or_introl (conj eq_refl eq_refl)))
             (after_headings reference_builtins (post_page (PInt 0))
                "https://medium.com/@ann/on-reading-1")
             1 "Reading, Time");
      vm_compute; reflexivity.
  - apply (proj2 (reading_time_field reference_builtins
                    (post_page (PFloat (571 # 100)))
                    "https://medium.com/@ann/on-reading-1" (PFloat (571 # 100)) "5 min"
                    eq_refl
                    (or_intror (ex_intro _ (571 # 100)%Q
                                  (conj eq_refl (conj eq_refl eq_refl)))))
             (after_headings reference_builtins (post_page (PFloat (571 # 100)))
                "https://medium.com/@ann/on-reading-1")
             1 "Reading, Time");
      vm_compute; reflexivity.
Defined.

(** *** Pages that break the contract *)

(** C4, the code at its failing inputs.  On a page without body element
    and without main content container the text fallback calls [get_text] on
    [None]: [extract_medium_data] raises [AttributeError].  On a page whose
    post object carries no clap count the article is returned with [None] as
    its claps, not the default 0. *)
Theorem extract_medium_data_breaks_on_bare_page :
  (forall B url, extract_from_soup B page_without_body url = Raised AttributeError) /\
  (forall B url,
     extract_medium_data B (fun _ => page_without_body) (net_200 "<h1>Hello</h1>") url =
       (Raised AttributeError, [EvGet])) /\
  (exists a, extract_from_soup reference_builtins page_without_claps
               "https://medium.com/p/untitled-1" = Returned a /\
             Claps a = PNone /\ Author_Name a = PStr "N/A").
Proof.
  split; [|split].
  - intros B url. reflexivity.
  - intros B url. reflexivity.
  - eexists. split; [vm_compute; reflexivity|]. split; reflexivity.
Qed.

End Extractor.

(** ** Comprehensions *)

Section Comprehension.
Context {A B : Type} (f : A -> outcome B).

Lemma comprehension_Forall2 xs : forall ys,
  comprehension f xs = Returned ys -> Forall2 (fun x y => f x = Returned y) xs ys.
Proof.
  induction xs as [|x xs IH]; intros ys H; simpl in H.
  - injection H as <-. constructor.
  - destruct (f x) as [y|e] eqn:Ex; [|discriminate].
    destruct (comprehension f xs) as [ys'|e]; [|discriminate].
    injection H as <-. constructor; [exact Ex | now apply IH].
Qed.

Lemma comprehension_returns xs :
  Forall (fun x => exists y, f x = Returned y) xs ->
  exists ys, comprehension f xs = Returned ys.
Proof.
  induction 1 as [|x xs [y Hy] _ [ys Hys]]; simpl.
  - now exists [].
  - rewrite Hy, Hys. now exists (y :: ys).
Qed.

Lemma comprehension_length xs ys :
  comprehension f xs = Returned ys -> length ys = length xs.
Proof.
  intros H. apply comprehension_Forall2 in H.
  symmetry. eapply Forall2_length, H.
Qed.

Lemma comprehension_lookup xs ys i y :
  comprehension f xs = Returned ys -> ys !! i = Some y ->
  exists x, xs !! i = Some x /\ f x = Returned y.
Proof.
  intros H Hy. apply comprehension_Forall2 in H.
  destruct (Forall2_lookup_r _ _ _ _ _ H Hy) as (x & Hx & Hf). eauto.
Qed.

End Comprehension.

(** ** The search endpoint *)

Section Ranker.
Import Api.

(** *** Loading: claps coercion and the missing snapshot *)

Lemma coerce_claps_Forall2 cells :
  Forall castable cells ->
  exists claps, coerce_claps cells = Returned claps /\ Forall2 coerced cells claps.
Proof.
  unfold coerce_claps, astype_int.
  induction 1 as [|c cells Hc _ (claps & Hclaps & Hall)]; simpl.
  - exists []. split; [reflexivity | constructor].
  - rewrite Hclaps.
    destruct c as [z|q| |s|]; simpl in *; try contradiction;
      eexists; (split; [reflexivity|]); constructor; try exact Hall; simpl.
    + unfold Qtrunc. simpl. now rewrite Z.quot_1_r.
    + reflexivity.
    + reflexivity.
    + reflexivity.
Qed.

Lemma Forall2_zip_with_claps (rows : list raw_row) (claps : list Z) :
  Forall2 coerced (map raw_Claps rows) claps ->
  Forall2 (fun r x => coerced (raw_Claps r) (Claps x) /\ Title x = raw_Title r /\
                      URL x = raw_URL r)
    rows
    (zip_with (fun r c => {| Title := raw_Title r; URL := raw_URL r; Claps := c;
                             search_corpus := make_search_corpus r |}) rows claps).
Proof.
  revert claps. induction rows as [|r rows IH]; intros claps H; simpl in *.
  - inversion H. constructor.
  - inversion H as [|? z ? claps' Hz Hrest]; subst. simpl.
    constructor; [simpl; auto | now apply IH].
Qed.


(** *** Executable stand-ins for the libraries *)

#[local] Instance score_le_dec l i j : Decision (score_le l i j).
Proof.
  unfold score_le.
  destruct (Qle_bool (nth i l 0) (nth j l 0))%Q eqn:E.
  - left. now apply Qle_bool_iff.
  - right. intros H. apply Qle_bool_iff in H. congruence.
Defined.

#[local] Instance score_le_trans l : Transitive (score_le l).
Proof. intros i j k. unfold score_le. apply Qle_trans. Qed.

#[local] Instance score_le_total l : Total (score_le l).
Proof.
  intros i j. unfold score_le.
  destruct (Qlt_le_dec (nth i l 0) (nth j l 0))%Q as [H|H]; [left | right]; auto.
  now apply Qlt_le_weak.
Qed.

Lemma merge_argsort_Permutation (l : list Q) :
  Permutation (merge_sort (score_le l) (seq 0 (length l))) (seq 0 (length l)).
Proof. apply merge_sort_Permutation. Qed.

Lemma merge_argsort_ascending (l : list Q) :
  StronglySorted (fun i j => (nth i l 0 <= nth j l 0)%Q)
                 (merge_sort (score_le l) (seq 0 (length l))).
Proof. apply (StronglySorted_merge_sort (score_le l)); apply _. Qed.

Definition merge_sorter : sorter :=
  {| argsort := fun l => merge_sort (score_le l) (seq 0 (length l));
     argsort_Permutation := merge_argsort_Permutation;
     argsort_ascending := merge_argsort_ascending |}.

(** C7, the claim as stated fails: a negative number in the snapshot is a
    number, so it is kept; the loaded row has negative claps. *)
Lemma claps_non_negative_counterexample :
  exists d,
    df (loaded snapshot_odd_claps) = Some d /\
    map Claps d = [50; 0; 0; 7; -5] /\
    ~ Forall (fun x => 0 <= Claps x) d.
Proof.
  eexists. split; [vm_compute; reflexivity|]. split; [reflexivity|].
  intros H. do 4 apply Forall_inv_tail in H. apply Forall_inv in H.
  simpl in H. lia.
Qed.

(** C7, amended. After coercion every row's claps value is an integer:
    text that is not a number and a missing value give 0, without raising; a
    finite number within the signed 64-bit range is kept, truncated toward
    zero, with its sign.  (Infinities and numbers outside that range are left
    aside.) *)
Theorem claps_after_coercion (fit_transform : fitter) (rows : list raw_row)
    (g : globals) (fitted : vectorizer * list (list Q)) :
  fit_transform (map make_search_corpus rows) = Returned fitted ->
  Forall (fun r => castable (raw_Claps r)) rows ->
  exists d,
    load_data_and_prepare_model fit_transform (Some rows) g =
      Returned (true, {| df := Some d;
                         tfidf_vectorizer := Some (fst fitted);
                         tfidf_matrix := Some (snd fitted) |}) /\
    Forall2 (fun r x => coerced (raw_Claps r) (Claps x)) rows d.
Proof.
  intros Hfit Hfinite.
  destruct (coerce_claps_Forall2 (map raw_Claps rows)) as (claps & Hclaps & Hall).
  { now rewrite Forall_map. }
  eexists. split.
  - unfold load_data_and_prepare_model. rewrite Hfit. simpl. rewrite Hclaps. simpl.
    reflexivity.
  - eapply Forall2_impl; [apply Forall2_zip_with_claps, Hall|].
    simpl. tauto.
Qed.

Lemma claps_after_coercion_witness :
  exists d,
    load_data_and_prepare_model indicator_fitter (Some snapshot_odd_claps)
      initial_globals =
      Returned (true, {| df := Some d;
                         tfidf_vectorizer := Some indicator;
                         tfidf_matrix := Some (map indicator
                           (map make_search_corpus snapshot_odd_claps)) |}) /\
    Forall2 (fun r x => coerced (raw_Claps r) (Claps x)) snapshot_odd_claps d.
Proof.
  apply (claps_after_coercion indicator_fitter snapshot_odd_claps initial_globals
           (indicator, map indicator (map make_search_corpus snapshot_odd_claps))).
  - reflexivity.
  - unfold snapshot_odd_claps. simpl.
    repeat (apply List.Forall_cons;
            [first [exact I | vm_compute; split; [discriminate | reflexivity]]|]).
    apply List.Forall_nil.
Defined.

(** C8. While the data frame is not loaded ([df is None], as after a start
    without the snapshot file, which leaves the globals as they were), every
    query gets the error payload as a returned value: nothing is raised. *)
Theorem search_articles_not_loaded (S : sorter) (g : globals) (query : string)
    (top_n : Z) :
  df g = None ->
  search_articles S g query top_n =
    Returned (ErrorPayload "Data not loaded. Check if scrapping_results.csv exists.") /\
  forall fit_transform,
    load_data_and_prepare_model fit_transform None g = Returned (false, g).
Proof.
  intros Hdf. split.
  - unfold search_articles. now rewrite Hdf.
  - reflexivity.
Qed.

Lemma search_articles_not_loaded_witness :
  search_articles merge_sorter initial_globals "python" 10 =
    Returned (ErrorPayload "Data not loaded. Check if scrapping_results.csv exists.").
Proof.
  apply (search_articles_not_loaded merge_sorter initial_globals "python" 10).
  reflexivity.
Defined.

(** *** The popularity term *)

Lemma fold_left_min_le (l : list Z) : forall x,
  fold_left Z.min l x <= x /\ Forall (fun c => fold_left Z.min l x <= c) l.
Proof.
  induction l as [|y l IH]; intros x; simpl.
  - split; [lia | constructor].
  - destruct (IH (Z.min x y)) as [H1 H2].
    split; [lia|]. constructor; [lia | exact H2].
Qed.

Lemma fold_left_max_ge (l : list Z) : forall x,
  x <= fold_left Z.max l x /\ Forall (fun c => c <= fold_left Z.max l x) l.
Proof.
  induction l as [|y l IH]; intros x; simpl.
  - split; [lia | constructor].
  - destruct (IH (Z.max x y)) as [H1 H2].
    split; [lia|]. constructor; [lia | exact H2].
Qed.

Lemma series_min_le (l : list Z) m c : series_min l = Some m -> c ∈ l -> m <= c.
Proof.
  destruct l as [|x l]; [discriminate|]. simpl. intros [= <-] Hc.
  destruct (fold_left_min_le l x) as [H1 H2].
  apply elem_of_cons in Hc as [-> | Hc]; [exact H1|].
  rewrite Forall_forall in H2. now apply H2.
Qed.

Lemma series_max_ge (l : list Z) m c : series_max l = Some m -> c ∈ l -> c <= m.
Proof.
  destruct l as [|x l]; [discriminate|]. simpl. intros [= <-] Hc.
  destruct (fold_left_max_ge l x) as [H1 H2].
  apply elem_of_cons in Hc as [-> | Hc]; [exact H1|].
  rewrite Forall_forall in H2. now apply H2.
Qed.

Lemma wrap64_small (z : Z) : - 2 ^ 63 <= z < 2 ^ 63 -> wrap64 z = z.
Proof. intros H. unfold wrap64. rewrite Z.mod_small; lia. Qed.

Lemma length_normalized_claps (d : list row) : length (normalized_claps d) = length d.
Proof.
  unfold normalized_claps.
  destruct (series_min (map Claps d)), (series_max (map Claps d));
    try apply length_replicate.
  destruct (_ >? _); [|apply length_replicate].
  now rewrite !length_map.
Qed.

Lemma fold_left_min_bound (l : list Z) b : forall x,
  b <= x -> Forall (fun c => b <= c) l -> b <= fold_left Z.min l x.
Proof.
  induction l as [|y l IH]; intros x Hx Hl; simpl; [exact Hx|].
  inversion Hl; subst. apply IH; [lia | assumption].
Qed.

Lemma fold_left_max_bound (l : list Z) b : forall x,
  x < b -> Forall (fun c => c < b) l -> fold_left Z.max l x < b.
Proof.
  induction l as [|y l IH]; intros x Hx Hl; simpl; [exact Hx|].
  inversion Hl; subst. apply IH; [lia | assumption].
Qed.

(** Claps that are non-negative 64-bit integers have a range that fits. *)
Lemma claps_range_fits (d : list row) min_claps max_claps :
  series_min (map Claps d) = Some min_claps ->
  series_max (map Claps d) = Some max_claps ->
  Forall (fun r => 0 <= Claps r < 2 ^ 63) d ->
  max_claps - min_claps < 2 ^ 63.
Proof.
  intros Hmin Hmax Hall.
  destruct d as [|r d]; [discriminate|].
  simpl in Hmin, Hmax. injection Hmin as <-. injection Hmax as <-.
  inversion Hall as [|? ? Hr Hd]; subst.
  assert (0 <= fold_left Z.min (map Claps d) (Claps r)).
  { apply fold_left_min_bound; [lia|].
    rewrite Forall_map. eapply Forall_impl; [exact Hd|]. simpl. lia. }
  assert (fold_left Z.max (map Claps d) (Claps r) < 2 ^ 63).
  { apply fold_left_max_bound; [lia|].
    rewrite Forall_map. eapply Forall_impl; [exact Hd|]. simpl. lia. }
  lia.
Qed.


Lemma ratio_in_unit_interval (a b : Z) :
  0 <= a <= b -> 0 < b -> (0 <= inject_Z a / inject_Z b <= 1)%Q.
Proof.
  intros Ha Hb.
  assert (Hb' : (0 < inject_Z b)%Q) by (change 0%Q with (inject_Z 0); now rewrite <- Zlt_Qlt).
  split.
  - apply Qle_shift_div_l; [exact Hb'|].
    rewrite Qmult_0_l. change 0%Q with (inject_Z 0). rewrite <- Zle_Qle. lia.
  - apply Qle_shift_div_r; [exact Hb'|].
    rewrite Qmult_1_l. rewrite <- Zle_Qle. lia.
Qed.

(** C3, the claim as stated fails: the column is int64, the difference
    [max - min] wraps around to -2^63 and the middle row's normalised claps
    is -0.5, outside [0, 1] and not (claps - min) / (max - min) = 0.5. *)
Lemma normalized_claps_counterexample :
  exists p, normalized_claps wide_claps !! 1%nat = Some p /\
            (p == - (1 # 2))%Q /\ (p < 0)%Q /\
            ~ (p == inject_Z (0 - - 2 ^ 62) / inject_Z (2 ^ 62 - - 2 ^ 62))%Q.
Proof.
  eexists. split; [vm_compute; reflexivity|].
  split; [reflexivity|]. split; [reflexivity|]. discriminate.
Qed.

(** C3, amended. When the range [max - min] of the claps fits a signed
    64-bit integer (as it does whenever no claps value is negative), every
    row's normalised claps lies in [0, 1]; it is
    (claps - min) / (max - min) when max > min, and exactly 0.5 when
    max = min, that is when all claps are equal. *)
Theorem normalized_claps_min_max (d : list row) (min_claps max_claps : Z) :
  series_min (map Claps d) = Some min_claps ->
  series_max (map Claps d) = Some max_claps ->
  max_claps - min_claps < 2 ^ 63 ->
  forall i r, d !! i = Some r ->
    exists p, normalized_claps d !! i = Some p /\
              (0 <= p <= 1)%Q /\
              (min_claps < max_claps ->
               p = (inject_Z (Claps r - min_claps)
                    / inject_Z (max_claps - min_claps))%Q) /\
              (max_claps = min_claps -> p = (1 # 2)%Q).
Proof.
  intros Hmin Hmax Hrange i r Hr.
  assert (Hlookup : map Claps d !! i = Some (Claps r)).
  { change (map Claps d) with (Claps <$> d). now rewrite list_lookup_fmap, Hr. }
  assert (Hc : Claps r ∈ map Claps d) by (eapply list_elem_of_lookup_2, Hlookup).
  pose proof (series_min_le _ _ _ Hmin Hc) as Hlo.
  pose proof (series_max_ge _ _ _ Hmax Hc) as Hhi.
  unfold normalized_claps. rewrite Hmin, Hmax.
  destruct (max_claps >? min_claps) eqn:E.
  - apply Z.gtb_lt in E.
    exists (inject_Z (Claps r - min_claps) / inject_Z (max_claps - min_claps))%Q.
    split; [|split; [|split]].
    + change (map ?f (map Claps d)) with (f <$> map Claps d).
      rewrite list_lookup_fmap, Hlookup. simpl.
      now rewrite !wrap64_small by lia.
    + apply ratio_in_unit_interval; lia.
    + reflexivity.
    + lia.
  - assert (max_claps = min_claps) as -> by lia.
    exists (1 # 2)%Q. split; [|split; [|split]].
    + apply lookup_replicate_2. eapply lookup_lt_Some, Hr.
    + split; discriminate.
    + lia.
    + reflexivity.
Qed.

Lemma normalized_claps_min_max_witness :
  (exists p, normalized_claps (map (fun c => Row None None c "") [0; 50; 100]) !! 1%nat
               = Some p /\ (0 <= p <= 1)%Q /\ p = (inject_Z 50 / inject_Z 100)%Q) /\
  (exists p, normalized_claps (map (fun c => Row None None c "") [7; 7]) !! 0%nat
               = Some p /\ p = (1 # 2)%Q).
Proof.
  split.
  - destruct (normalized_claps_min_max (map (fun c => Row None None c "") [0; 50; 100])
                0 100 eq_refl eq_refl ltac:(lia) 1%nat (Row None None 50 "") eq_refl)
      as (p & Hp & Hunit & Hratio & _).
    exists p. split; [exact Hp|]. split; [exact Hunit|]. apply Hratio. lia.
  - destruct (normalized_claps_min_max (map (fun c => Row None None c "") [7; 7])
                7 7 eq_refl eq_refl ltac:(lia) 0%nat (Row None None 7 "") eq_refl)
      as (p & Hp & _ & _ & Hhalf).
    exists p. split; [exact Hp|]. now apply Hhalf.
Defined.


(** *** Scores *)

Lemma dot_returns (u : list Q) : forall v,
  length u = length v -> exists s, dot u v = Returned s.
Proof.
  induction u as [|x u IH]; intros [|y v] H; simpl in *; try discriminate.
  - now exists 0%Q.
  - destruct (IH v) as [s ->]; [lia|]. simpl. eauto.
Qed.

Lemma final_scores_returns v matrix d query :
  length matrix = length d ->
  Forall (fun weights => length weights = length (v query)) matrix ->
  exists final_score,
    final_scores v matrix d query = Returned final_score /\
    length final_score = length d.
Proof.
  intros Hlen Hdim. unfold final_scores, linear_kernel.
  destruct (comprehension_returns (fun weights => dot (v query) weights) matrix)
    as [sims Hsims].
  { eapply Forall_impl; [exact Hdim|]. simpl. intros w Hw.
    apply dot_returns. congruence. }
  rewrite Hsims. simpl. unfold weighted_score.
  pose proof (comprehension_length _ _ _ Hsims) as Hl.
  rewrite length_normalized_claps.
  replace (length sims =? length d)%nat with true
    by (symmetry; apply Nat.eqb_eq; congruence).
  eexists. split; [reflexivity|].
  rewrite length_zip_with, length_normalized_claps. lia.
Qed.

(** Every fused score is 0.7 times the similarity plus 0.3 times the
    normalised claps of its row. *)
Lemma final_scores_lookup v matrix d query final_score i score :
  final_scores v matrix d query = Returned final_score ->
  final_score !! i = Some score ->
  exists weights similarity popularity,
    matrix !! i = Some weights /\
    dot (v query) weights = Returned similarity /\
    normalized_claps d !! i = Some popularity /\
    score = ((7 # 10) * similarity + (3 # 10) * popularity)%Q.
Proof.
  unfold final_scores, linear_kernel. intros H Hi.
  destruct (comprehension _ matrix) as [sims|e] eqn:Hsims; [|discriminate].
  simpl in H. unfold weighted_score in H.
  destruct (_ =? _)%nat; [|discriminate]. injection H as <-.
  apply lookup_zip_with_Some in Hi as (similarity & popularity & -> & Hs & Hp).
  destruct (comprehension_lookup _ _ _ _ _ Hsims Hs) as (weights & Hw & Hdot).
  exists weights, similarity, popularity. auto.
Qed.

(** *** The top of the ranking *)

Lemma StronglySorted_reverse {A} (R : relation A) (l : list A) :
  StronglySorted R l -> StronglySorted (fun x y => R y x) (reverse l).
Proof.
  induction 1 as [|x l _ IH Hx].
  - constructor.
  - rewrite reverse_cons. apply StronglySorted_app_2.
    + intros y z Hy Hz. apply list_elem_of_singleton in Hz as ->.
      rewrite elem_of_reverse in Hy. rewrite Forall_forall in Hx. now apply Hx.
    + exact IH.
    + repeat constructor.
Qed.

Lemma StronglySorted_drop {A} (R : relation A) (l : list A) n :
  StronglySorted R l -> StronglySorted R (drop n l).
Proof.
  intros H. rewrite <- (take_drop n l) in H.
  now apply StronglySorted_app_1_r in H.
Qed.

Lemma elem_of_drop {A} (l : list A) n x : x ∈ drop n l -> x ∈ l.
Proof.
  intros H. rewrite <- (take_drop n l). apply elem_of_app. now right.
Qed.

Lemma StronglySorted_Forall2 {A B} (P : A -> B -> Prop) (R : relation A)
    (R' : relation B) (xs : list A) (ys : list B) :
  (forall x x' y y', P x y -> P x' y' -> R x x' -> R' y y') ->
  Forall2 P xs ys -> StronglySorted R xs -> StronglySorted R' ys.
Proof.
  intros Htransfer H. induction H as [|x y xs ys Hxy Hall IH]; intros Hs.
  - constructor.
  - inversion Hs as [|? ? Hs' Hx]; subst. constructor; [now apply IH|].
    clear IH Hs Hs'. induction Hall as [|x' y' xs ys Hxy' _ IH].
    + constructor.
    + inversion Hx; subst. constructor; [|now apply IH].
      eapply Htransfer; eassumption.
Qed.

Lemma top_indices_length S final_score top_n :
  1 <= top_n ->
  Z.of_nat (length (top_indices S final_score top_n)) =
    Z.min top_n (Z.of_nat (length final_score)).
Proof.
  intros Htop. unfold top_indices, slice_from.
  rewrite length_reverse, length_drop.
  rewrite (Permutation_length (argsort_Permutation S final_score)), length_seq.
  replace (- top_n <? 0) with true by (symmetry; apply Z.ltb_lt; lia).
  lia.
Qed.

Lemma top_indices_in_range S final_score top_n i :
  i ∈ top_indices S final_score top_n -> (i < length final_score)%nat.
Proof.
  unfold top_indices, slice_from. intros H.
  rewrite elem_of_reverse in H. apply elem_of_drop in H.
  rewrite (argsort_Permutation S final_score) in H.
  apply elem_of_seq in H. lia.
Qed.

Lemma top_indices_descending S final_score top_n :
  StronglySorted (fun i j => (nth j final_score 0 <= nth i final_score 0)%Q)
                 (top_indices S final_score top_n).
Proof.
  unfold top_indices.
  apply (StronglySorted_reverse (fun i j => (nth i final_score 0 <= nth j final_score 0)%Q)).
  apply StronglySorted_drop, argsort_ascending.
Qed.

(** *** Rounding *)

Lemma round_half_even_bounds (q : Q) :
  Qfloor q <= round_half_even q <= Qfloor q + 1.
Proof.
  unfold round_half_even.
  destruct (_ ?= _)%Q; [destruct (Z.even _)| |]; lia.
Qed.

Lemma round_half_even_mono (x y : Q) :
  (x <= y)%Q -> round_half_even x <= round_half_even y.
Proof.
  intros Hxy. pose proof (Qfloor_resp_le _ _ Hxy) as Hf.
  destruct (Z.eq_dec (Qfloor x) (Qfloor y)) as [E|E].
  - unfold round_half_even. rewrite <- E.
    destruct (Qcompare_spec (x - inject_Z (Qfloor x)) (1 # 2)) as [Hx|Hx|Hx];
      destruct (Qcompare_spec (y - inject_Z (Qfloor x)) (1 # 2)) as [Hy|Hy|Hy];
      try destruct (Z.even (Qfloor x)); try lia; exfalso; lra.
  - pose proof (round_half_even_bounds x). pose proof (round_half_even_bounds y). lia.
Qed.

Lemma round4_mono (x y : Q) : (x <= y)%Q -> (round4 x <= round4 y)%Q.
Proof.
  intros Hxy. unfold round4, Qdiv.
  apply Qmult_le_compat_r; [|discriminate].
  rewrite <- Zle_Qle. apply round_half_even_mono.
  apply Qmult_le_compat_r; [exact Hxy | discriminate].
Qed.


(** *** The endpoint on a fitted index *)

Lemma format_result_returns (d : list row) (final_score : list Q) i :
  length final_score = length d -> (i < length final_score)%nat ->
  exists res, format_result d final_score i = Returned res.
Proof.
  intros Hlen Hi. unfold format_result.
  destruct (lookup_lt_is_Some_2 d i) as [r ->]; [lia|].
  destruct (lookup_lt_is_Some_2 final_score i) as [score ->]; [lia|].
  eauto.
Qed.

Lemma format_result_inv (d : list row) (final_score : list Q) i res :
  format_result d final_score i = Returned res ->
  exists r score,
    d !! i = Some r /\ final_score !! i = Some score /\
    res_Title res = Title r /\ res_URL res = URL r /\ res_Claps res = Claps r /\
    res_Relevance_Score res = round4 score.
Proof.
  unfold format_result. intros H.
  destruct (d !! i) as [r|]; [|discriminate].
  destruct (final_score !! i) as [score|]; [|discriminate].
  injection H as <-. exists r, score. simpl. auto 10.
Qed.

(** On a fitted index the endpoint goes through: the scores are computed,
    every selected position is formatted, the results are returned. *)
Lemma search_articles_run S g d v matrix query top_n :
  fitted g d v matrix ->
  exists final_score results,
    final_scores v matrix d query = Returned final_score /\
    length final_score = length d /\
    comprehension (format_result d final_score) (top_indices S final_score top_n)
      = Returned results /\
    search_articles S g query top_n = Returned (Results results).
Proof.
  intros (Hdf & Hv & Hm & Hlen & Hdim).
  destruct (final_scores_returns v matrix d query Hlen (Hdim query))
    as (final_score & Hscores & Hlen').
  destruct (comprehension_returns (format_result d final_score)
              (top_indices S final_score top_n)) as [results Hresults].
  { apply Forall_forall. intros i Hi.
    apply format_result_returns; [exact Hlen'|].
    eapply top_indices_in_range, Hi. }
  exists final_score, results. repeat split; try assumption.
  unfold search_articles. rewrite Hdf, Hv, Hm, Hscores. simpl.
  rewrite Hresults. reflexivity.
Qed.

(** C1. On a fitted index, for every query and every [top_n] from 1 on (so
    for 1 to 100, and for a corpus that is not empty), [search_articles]
    returns exactly min(top_n, corpus size) results, in the order of
    descending fused score: the rows are taken in that order, and the
    emitted scores descend as well. *)
Theorem search_articles_top_n (S : sorter) (g : globals) (d : list row)
    (v : vectorizer) (matrix : list (list Q)) (query : string) (top_n : Z) :
  fitted g d v matrix ->
  1 <= top_n ->
  exists final_score results,
    final_scores v matrix d query = Returned final_score /\
    search_articles S g query top_n = Returned (Results results) /\
    Z.of_nat (length results) = Z.min top_n (Z.of_nat (length d)) /\
    Forall2 (fun i res => format_result d final_score i = Returned res)
            (top_indices S final_score top_n) results /\
    StronglySorted (fun i j => (nth j final_score 0 <= nth i final_score 0)%Q)
                   (top_indices S final_score top_n) /\
    StronglySorted (fun a b => (res_Relevance_Score b <= res_Relevance_Score a)%Q)
                   results.
Proof.
  intros Hfit Htop.
  destruct (search_articles_run S g d v matrix query top_n Hfit)
    as (final_score & results & Hscores & Hlen & Hresults & Hsearch).
  exists final_score, results.
  pose proof (comprehension_Forall2 _ _ _ Hresults) as Hall.
  pose proof (top_indices_descending S final_score top_n) as Hsorted.
  split; [exact Hscores|]. split; [exact Hsearch|]. split; [|split; [exact Hall|split]].
  - rewrite (comprehension_length _ _ _ Hresults), top_indices_length by exact Htop.
    now rewrite Hlen.
  - exact Hsorted.
  - eapply StronglySorted_Forall2; [|exact Hall|exact Hsorted].
    intros i j a b Ha Hb Hij. simpl in *.
    apply format_result_inv in Ha as (_ & sa & _ & Hsa & _ & _ & _ & ->).
    apply format_result_inv in Hb as (_ & sb & _ & Hsb & _ & _ & _ & ->).
    rewrite !nth_lookup, Hsa, Hsb in Hij. simpl in Hij.
    now apply round4_mono.
Qed.

(** C2. On a fitted index every returned result comes from a row of the
    data frame: it carries the row's title, URL and claps, and its relevance
    score is 0.7 times the similarity plus 0.3 times the row's normalised
    claps, rounded to 4 decimal digits, the similarity being the product of
    the query's vector with the row's weight vector. *)
Theorem relevance_score_formula (S : sorter) (g : globals) (d : list row)
    (v : vectorizer) (matrix : list (list Q)) (query : string) (top_n : Z) :
  fitted g d v matrix ->
  exists results,
    search_articles S g query top_n = Returned (Results results) /\
    forall res, res ∈ results ->
      exists i r weights similarity popularity,
        d !! i = Some r /\
        matrix !! i = Some weights /\
        dot (v query) weights = Returned similarity /\
        normalized_claps d !! i = Some popularity /\
        res_Title res = Title r /\ res_URL res = URL r /\
        res_Claps res = Claps r /\
        res_Relevance_Score res =
          round4 ((7 # 10) * similarity + (3 # 10) * popularity)%Q.
Proof.
  intros Hfit.
  destruct (search_articles_run S g d v matrix query top_n Hfit)
    as (final_score & results & Hscores & Hlen & Hresults & Hsearch).
  exists results. split; [exact Hsearch|].
  intros res Hres. apply list_elem_of_lookup in Hres as [k Hk].
  destruct (comprehension_lookup _ _ _ _ _ Hresults Hk) as (i & _ & Hfmt).
  apply format_result_inv in Hfmt as (r & score & Hr & Hscore & Ht & Hu & Hc & Hrel).
  destruct (final_scores_lookup _ _ _ _ _ _ _ Hscores Hscore)
    as (weights & similarity & popularity & Hw & Hdot & Hpop & ->).
  exists i, r, weights, similarity, popularity. auto 10.
Qed.

(** Loading a snapshot with a well-behaved vectorizer leaves a fitted index. *)
Lemma load_fitted (fit_transform : fitter) (rows : list raw_row) (g : globals)
    (v : vectorizer) (matrix : list (list Q)) :
  fit_transform (map make_search_corpus rows) = Returned (v, matrix) ->
  length matrix = length rows ->
  (forall query, Forall (fun weights => length weights = length (v query)) matrix) ->
  Forall (fun r => castable (raw_Claps r)) rows ->
  exists d g',
    load_data_and_prepare_model fit_transform (Some rows) g = Returned (true, g') /\
    fitted g' d v matrix.
Proof.
  intros Hfit Hlen Hdim Hfinite.
  destruct (coerce_claps_Forall2 (map raw_Claps rows)) as (claps & Hclaps & Hall).
  { now rewrite Forall_map. }
  eexists. eexists. split.
  - unfold load_data_and_prepare_model. rewrite Hfit. simpl. rewrite Hclaps. simpl.
    reflexivity.
  - unfold fitted. simpl. repeat split; try assumption.
    apply Forall2_zip_with_claps, Forall2_length in Hall. congruence.
Qed.

(** The three-article corpus, loaded and fitted with the stand-ins. *)
Lemma loaded_fitted :
  exists d matrix, fitted (loaded snapshot_0_50_100) d indicator matrix /\
                   length d = 3%nat.
Proof.
  eexists. eexists. split.
  - unfold fitted. split; [vm_compute; reflexivity|].
    split; [reflexivity|]. split; [reflexivity|]. split; [reflexivity|].
    intros query. repeat constructor.
  - reflexivity.
Qed.

Lemma search_articles_top_n_witness :
  exists results,
    search_articles merge_sorter (loaded snapshot_0_50_100) "python" 2 =
      Returned (Results results) /\
    length results = 2%nat /\
    StronglySorted (fun a b => (res_Relevance_Score b <= res_Relevance_Score a)%Q)
                   results.
Proof.
  destruct loaded_fitted as (d & matrix & Hfit & Hd).
  destruct (search_articles_top_n merge_sorter (loaded snapshot_0_50_100) d indicator
              matrix "python" 2 Hfit ltac:(lia))
    as (final_score & results & _ & Hsearch & Hlen & _ & _ & Hsorted).
  exists results. split; [exact Hsearch|]. split; [lia | exact Hsorted].
Defined.

Lemma relevance_score_formula_witness :
  exists results,
    search_articles merge_sorter (loaded snapshot_0_50_100) "python" 2 =
      Returned (Results results) /\
    forall res, res ∈ results ->
      exists similarity popularity,
        res_Relevance_Score res =
          round4 ((7 # 10) * similarity + (3 # 10) * popularity)%Q.
Proof.
  destruct loaded_fitted as (d & matrix & Hfit & _).
  destruct (relevance_score_formula merge_sorter (loaded snapshot_0_50_100) d indicator
              matrix "python" 2 Hfit) as (results & Hsearch & Hall).
  exists results. split; [exact Hsearch|].
  intros res Hres.
  destruct (Hall res Hres) as (i & r & w & similarity & popularity & H).
  exists similarity, popularity. apply H.
Defined.

End Ranker.

(** * Further properties *)

(** ** The fetcher, in general *)

Section FetcherMore.
Import Scraper.

Lemma backoff_trace_S a k :
  backoff_trace a (S k) =
    EvGet :: EvSleep (5 * (Z.of_nat a + 1)) :: backoff_trace (S a) k.
Proof. reflexivity. Qed.

Lemma fetch_loop_Some_inv net rem : forall a r tr,
  fetch_loop net a rem = (Some r, tr) ->
  exists k, (k < rem)%nat /\
            (forall j, (a <= j < a + k)%nat -> forbidden (net j)) /\
            success (net (a + k)%nat) r /\
            tr = backoff_trace a k ++ [EvGet].
Proof.
  induction rem as [|rem IH]; intros a r tr H; simpl in H; [discriminate|].
  destruct (net a) as [r0|] eqn:Hnet; [|discriminate].
  destruct (raise_for_status r0) eqn:Hraise.
  - destruct (status_code r0 =? 403) eqn:Hcode; [|discriminate].
    destruct (fetch_loop net (S a) rem) as [res tr'] eqn:Hrec.
    injection H as -> <-.
    destruct (IH _ _ _ Hrec) as (k & Hk & Hforb & Hsucc & ->).
    exists (S k). split; [lia|]. split; [|split].
    + intros j Hj. destruct (decide (j = a)) as [->|Hne].
      * exists (text r0). rewrite Hnet. apply Z.eqb_eq in Hcode.
        destruct r0 as [code body]. simpl in *. now subst.
      * apply Hforb. lia.
    + now replace (a + S k)%nat with (S a + k)%nat by lia.
    + now rewrite backoff_trace_S.
  - injection H as <- <-. exists 0%nat.
    split; [lia|]. split; [intros j Hj; lia|]. split.
    + rewrite Nat.add_0_r. now split.
    + reflexivity.
Qed.

(** X1. [fetch_url] returns a response exactly when some attempt within
    [max_retries] gets a response that [raise_for_status] lets through and
    every attempt before it got 403; the trace is then the back-offs of those
    attempts followed by the last request. *)
Theorem fetch_url_returns_iff (net : network) (max_retries : Z) (r : response)
    (tr : list event) :
  fetch_url net max_retries = (Some r, tr) <->
  exists k, Z.of_nat k < max_retries /\
            (forall j, (j < k)%nat -> forbidden (net j)) /\
            success (net k) r /\
            tr = backoff_trace 0 k ++ [EvGet].
Proof.
  unfold fetch_url. split.
  - intros H. apply fetch_loop_Some_inv in H as (k & Hk & Hforb & Hsucc & ->).
    exists k. split; [lia|]. split; [|split; [exact Hsucc | reflexivity]].
    intros j Hj. apply Hforb. lia.
  - intros (k & Hk & Hforb & Hsucc & ->).
    replace (Z.to_nat max_retries) with (k + S (Z.to_nat max_retries - S k))%nat by lia.
    rewrite fetch_loop_skip by (intros j Hj; apply Hforb; lia).
    change (0 + k)%nat with k.
    now rewrite (fetch_loop_success _ _ _ r) by exact Hsucc.
Qed.

Lemma schedule_S a k : schedule a (S k) = 5 * (Z.of_nat a + 1) :: schedule (S a) k.
Proof. reflexivity. Qed.

Lemma total_schedule k : forall a,
  2 * total (schedule a k) =
    5 * Z.of_nat k * (2 * Z.of_nat a + Z.of_nat k + 1).
Proof.
  induction k as [|k IH]; intros a; [simpl; lia|].
  rewrite schedule_S. unfold total in *. simpl foldr.
  specialize (IH (S a)). nia.
Qed.

Lemma requests_sent_get tr : requests_sent (EvGet :: tr) = S (requests_sent tr).
Proof. reflexivity. Qed.

Lemma requests_sent_sleep d tr : requests_sent (EvSleep d :: tr) = requests_sent tr.
Proof. reflexivity. Qed.

Lemma sleeps_get tr : sleeps (EvGet :: tr) = sleeps tr.
Proof. reflexivity. Qed.

Lemma sleeps_sleep d tr : sleeps (EvSleep d :: tr) = d :: sleeps tr.
Proof. reflexivity. Qed.

(** The shape of every trace of the loop: the delays slept are the first
    [k] of the schedule, and one request more than that at most was sent. *)
Lemma fetch_loop_trace net rem : forall a,
  exists k, (k <= rem)%nat /\
            sleeps (snd (fetch_loop net a rem)) = schedule a k /\
            (k <= requests_sent (snd (fetch_loop net a rem)) <= S k)%nat /\
            (requests_sent (snd (fetch_loop net a rem)) <= rem)%nat.
Proof.
  induction rem as [|rem IH]; intros a.
  - exists 0%nat. cbn. repeat split; lia.
  - simpl. destruct (net a) as [r0|].
    + destruct (raise_for_status r0).
      * destruct (status_code r0 =? 403).
        -- destruct (IH (S a)) as (k & Hk & Hs & Hr & Hr').
           destruct (fetch_loop net (S a) rem) as [res tr']. cbn [snd] in *.
           exists (S k). rewrite schedule_S.
           rewrite sleeps_get, sleeps_sleep, requests_sent_get, requests_sent_sleep, Hs.
           split; [lia|]. split; [reflexivity|]. lia.
        -- exists 0%nat. cbn. repeat split; lia.
      * exists 0%nat. cbn. repeat split; lia.
    + exists 0%nat. cbn. repeat split; lia.
Qed.

(** X2. Whatever the network does, [fetch_url] sends at most [max_retries]
    requests, and the delays it sleeps are the first [k] steps 5, 10, 15, ...
    of the back-off schedule, with [k] or [k + 1] requests sent; the time
    slept is at most 5 n (n + 1) / 2 for [n] retries.  With the default of 3
    retries: at most 3 requests and 30 seconds. *)
Theorem fetch_url_bounded (net : network) (max_retries : Z) :
  let tr := snd (fetch_url net max_retries) in
  let n := Z.of_nat (Z.to_nat max_retries) in
  (exists k, sleeps tr = schedule 0 k /\
             (k <= requests_sent tr <= S k)%nat) /\
  Z.of_nat (requests_sent tr) <= n /\
  2 * total (sleeps tr) <= 5 * n * (n + 1) /\
  total (sleeps (snd (fetch_url net 3))) <= 30.
Proof.
  intros tr n. subst tr n. unfold fetch_url.
  destruct (fetch_loop_trace net (Z.to_nat max_retries) 0) as (k & Hk & Hs & Hr & Hr').
  split; [eauto|]. split; [lia|]. split.
  - rewrite Hs, total_schedule. nia.
  - destruct (fetch_loop_trace net (Z.to_nat 3) 0) as (k3 & Hk3 & Hs3 & _).
    rewrite Hs3. pose proof (total_schedule k3 0).
    change (Z.to_nat 3) with 3%nat in Hk3. nia.
Qed.

End FetcherMore.

(** ** The extractor, field by field *)

Section ExtractorMore.
Import Scraper.

(** *** What the structured layer can store *)

Lemma text_from_json_cases post_data (ad : article_data) :
  text_from_json post_data ad = ad \/
  exists s, text_from_json post_data ad = <["Text" := PStr s]> ad.
Proof.
  unfold text_from_json, try_.
  destruct (c <- py_get post_data "content" (PDict []);;
            get_get c "bodyModel" "paragraphs" (PList []))%py; [|now left].
  destruct (ps <- py_iter a;;
            texts <- comprehension (fun p => py_get p "text" (PStr "")) ps;;
            py_join " " texts)%py; [|now left].
  right. eauto.
Qed.

Lemma py_get_returned_dict v key default x :
  py_get v key default = Returned x -> exists d, v = PDict d.
Proof. destruct v; simpl; try discriminate. eauto. Qed.

Lemma py_get_dict d key default : exists x, py_get (PDict d) key default = Returned x.
Proof. simpl. eauto. Qed.

Lemma author_from_json_cases B page_props post_data (ad : article_data) k :
  author_from_json B page_props post_data ad k = ad \/
  author_from_json B page_props post_data ad k = k ad \/
  exists name username,
    author_from_json B page_props post_data ad k =
      k (<["Author URL" := PStr ("https://medium.com/@" +:+ py_str B username)]>
           (<["Author Name" := name]> ad)).
Proof.
  unfold author_from_json, try_.
  destruct (py_get post_data "creatorId" PNone) as [creator_id|]; [|now left].
  destruct (get_get page_props "pageData" "user" PNone) as [user|]; [|now left].
  destruct (if truthy user
            then (uid <- py_get user "userId" PNone;; Returned (py_eq uid creator_id))%py
            else Returned false) as [[|]|] eqn:Hmatch; [| |now left].
  - destruct (truthy user); [|discriminate].
    destruct (py_get user "userId" PNone) as [uid|] eqn:Huid; [|discriminate].
    apply py_get_returned_dict in Huid as [d ->]. simpl. right. right. eauto.
  - destruct (py_get post_data "creator" PNone) as [author|]; [|now left].
    destruct (truthy author); [|now right; left].
    destruct (py_get author "name" PNone) as [name|] eqn:Hname; [|now left].
    apply py_get_returned_dict in Hname as [d ->]. simpl. right. right. eauto.
Qed.

Lemma structured_refl B (ad : article_data) : structured B ad ad.
Proof. split; auto. Qed.

Ltac lookups :=
  repeat first [ rewrite lookup_insert_eq
               | rewrite lookup_insert_ne by (discriminate || congruence) ].

Ltac stored :=
  first [ left; split; lookups; reflexivity
        | left; lookups; reflexivity
        | right; do 2 eexists; split; lookups; reflexivity
        | right; eexists; lookups; reflexivity ].

Lemma not_json_key k :
  k ∉ json_keys ->
  k <> "Title" /\ k <> "Subtitle" /\ k <> "Claps" /\ k <> "Reading Time" /\
  k <> "Keywords" /\ k <> "Author Name" /\ k <> "Author URL" /\ k <> "Text".
Proof.
  unfold json_keys. rewrite !not_elem_of_cons. tauto.
Qed.

Ltac solve_structured :=
  split;
  [ stored | stored | stored
  | let k := fresh "k" in let Hk := fresh "Hk" in
    intros k Hk; apply not_json_key in Hk;
    destruct Hk as (? & ? & ? & ? & ? & ? & ? & ?); lookups; reflexivity ].

Lemma structured_layer_structured B json_data (ad : article_data) :
  structured B ad (structured_layer B json_data ad).
Proof.
  unfold structured_layer, try_.
  destruct (get_get json_data "props" "pageProps" (PDict [])) as [page_props|];
    [|apply structured_refl].
  destruct (p <- get_get page_props "pageData" "post" PNone;;
            py_or p (py_get page_props "post" PNone))%py as [post_data|];
    [|apply structured_refl].
  destruct (truthy post_data); [|apply structured_refl].
  destruct (py_get post_data "title" PNone) as [title|]; [|apply structured_refl].
  destruct (get_get post_data "virtuals" "subtitle" PNone) as [subtitle|];
    [|solve_structured].
  destruct (get_get post_data "virtuals" "totalClapCount" PNone) as [claps|];
    [|solve_structured].
  destruct (get_get post_data "virtuals" "readingTime" PNone) as [reading_time|];
    [|solve_structured].
  destruct (tags <- get_get post_data "virtuals" "tags" (PList []);;
            items <- py_iter tags;;
            comprehension (fun tag => py_getitem tag "name") items)%py as [keywords|];
    [|solve_structured].
  match goal with
  | |- structured _ _ (author_from_json _ _ _ ?ad5 ?k) =>
      destruct (author_from_json_cases B page_props post_data ad5 k)
        as [-> | [-> | (name & username & ->)]]
  end.
  - solve_structured.
  - match goal with
    | |- structured _ _ (text_from_json _ ?ad5) =>
        destruct (text_from_json_cases post_data ad5) as [-> | [s ->]]
    end; solve_structured.
  - match goal with
    | |- structured _ _ (text_from_json _ ?ad5) =>
        destruct (text_from_json_cases post_data ad5) as [-> | [s ->]]
    end; solve_structured.
Qed.

Lemma json_layer_structured B page (ad : article_data) :
  structured B ad (json_layer B page ad).
Proof.
  unfold json_layer.
  destruct (next_data_script page) as [[|json_data]|];
    try apply structured_refl.
  apply structured_layer_structured.
Qed.


(** *** From the dict to the article *)

Lemma final_result_fields B url (ad : article_data) a :
  final_result B url ad = Returned a ->
  URL a = url /\
  Title a = dict_get ad "Title" (PStr "N/A") /\
  Subtitle a = dict_get ad "Subtitle" (PStr "N/A") /\
  Text a = dict_get ad "Text" (PStr "N/A") /\
  No_of_images a = dict_get ad "No. of images" (PInt 0) /\
  Image_URLs a = dict_get ad "Image URLs" (PStr "N/A") /\
  No_of_external_links a = dict_get ad "No. of external links" (PInt 0) /\
  Author_Name a = dict_get ad "Author Name" (PStr "N/A") /\
  Author_URL a = dict_get ad "Author URL" (PStr "N/A") /\
  Claps a = dict_get ad "Claps" (PInt 0).
Proof.
  unfold final_result. intros H.
  destruct (format_reading_time B ad) as [rt|e]; [|discriminate]. simpl in H.
  destruct (format_keywords ad) as [kw|e]; [|discriminate]. simpl in H.
  injection H as <-. simpl. auto 12.
Qed.

Lemma title_fallback_Title page (ad : article_data) :
  title_fallback page ad !! "Title" =
    Some (layered (ad !! "Title") (heading (h1_text page))).
Proof.
  unfold title_fallback, dict_get, layered, heading.
  destruct (ad !! "Title") as [v|] eqn:E; simpl.
  - destruct (truthy v); simpl; [exact E | apply lookup_insert_eq].
  - apply lookup_insert_eq.
Qed.

Lemma subtitle_fallback_Subtitle page (ad : article_data) :
  subtitle_fallback page ad !! "Subtitle" =
    Some (layered (ad !! "Subtitle") (heading (h2_text page))).
Proof.
  unfold subtitle_fallback, dict_get, layered, heading.
  destruct (ad !! "Subtitle") as [v|] eqn:E; simpl.
  - destruct (truthy v); simpl; [exact E | apply lookup_insert_eq].
  - apply lookup_insert_eq.
Qed.

Lemma text_fallback_Text page (ad ad' : article_data) :
  text_fallback page ad = Returned ad' ->
  match html_text page with
  | Some t => ad' !! "Text" = Some (layered (ad !! "Text") (PStr t))
  | None => truthy (dict_get ad "Text" PNone) = true /\ ad' !! "Text" = ad !! "Text"
  end.
Proof.
  unfold text_fallback, html_text, dict_get, layered.
  destruct (ad !! "Text") as [v|] eqn:E; simpl.
  - destruct (truthy v); simpl.
    + intros [= <-].
      destruct (div_main_text page); [exact E|].
      destruct (article_text page); [exact E|].
      destruct (body_text page); [exact E | auto].
    + destruct (div_main_text page); [intros [= <-]; apply lookup_insert_eq|].
      destruct (article_text page); [intros [= <-]; apply lookup_insert_eq|].
      destruct (body_text page); [intros [= <-]; apply lookup_insert_eq | discriminate].
  - destruct (div_main_text page); [intros [= <-]; apply lookup_insert_eq|].
    destruct (article_text page); [intros [= <-]; apply lookup_insert_eq|].
    destruct (body_text page); [intros [= <-]; apply lookup_insert_eq | discriminate].
Qed.

Lemma not_html_key k :
  k ∉ html_keys ->
  k <> "Title" /\ k <> "Subtitle" /\ k <> "Text" /\ k <> "No. of images" /\
  k <> "Image URLs" /\ k <> "No. of external links".
Proof. unfold html_keys. rewrite !not_elem_of_cons. tauto. Qed.

(** A key of the structured layer alone reaches [final_result] as stored. *)
Lemma json_key_reaches_final B page url (ad : article_data) n k :
  text_fallback page (after_headings B page url) = Returned ad ->
  k ∉ html_keys ->
  assembled page ad n !! k = json_layer B page {["URL" := PStr url]} !! k.
Proof.
  intros Htext Hk. apply not_html_key in Hk as (? & ? & ? & ? & ? & ?).
  rewrite assembled_lookup by assumption.
  rewrite (text_fallback_lookup _ _ _ _ Htext) by assumption.
  unfold after_headings.
  rewrite subtitle_fallback_lookup by assumption.
  now rewrite title_fallback_lookup by assumption.
Qed.

Lemma Title_reaches_final B page url (ad : article_data) n :
  text_fallback page (after_headings B page url) = Returned ad ->
  assembled page ad n !! "Title" =
    Some (layered (json_layer B page {["URL" := PStr url]} !! "Title")
                  (heading (h1_text page))).
Proof.
  intros Htext.
  rewrite assembled_lookup by discriminate.
  rewrite (text_fallback_lookup _ _ _ _ Htext) by discriminate.
  unfold after_headings.
  rewrite subtitle_fallback_lookup by discriminate.
  apply title_fallback_Title.
Qed.

Lemma Subtitle_reaches_final B page url (ad : article_data) n :
  text_fallback page (after_headings B page url) = Returned ad ->
  assembled page ad n !! "Subtitle" =
    Some (layered (json_layer B page {["URL" := PStr url]} !! "Subtitle")
                  (heading (h2_text page))).
Proof.
  intros Htext.
  rewrite assembled_lookup by discriminate.
  rewrite (text_fallback_lookup _ _ _ _ Htext) by discriminate.
  unfold after_headings.
  rewrite subtitle_fallback_Subtitle.
  now rewrite title_fallback_lookup by discriminate.
Qed.

Lemma after_headings_Text B page url :
  after_headings B page url !! "Text" =
    json_layer B page {["URL" := PStr url]} !! "Text".
Proof.
  unfold after_headings.
  rewrite subtitle_fallback_lookup by discriminate.
  now rewrite title_fallback_lookup by discriminate.
Qed.

Lemma Text_reaches_final B page url (ad : article_data) n :
  text_fallback page (after_headings B page url) = Returned ad ->
  let stored := json_layer B page {["URL" := PStr url]} !! "Text" in
  match html_text page with
  | Some t => assembled page ad n !! "Text" = Some (layered stored (PStr t))
  | None => (exists v, stored = Some v /\ truthy v = true) /\
            assembled page ad n !! "Text" = stored
  end.
Proof.
  intros Htext stored. subst stored.
  rewrite assembled_lookup by discriminate.
  pose proof (text_fallback_Text _ _ _ Htext) as H.
  unfold dict_get in H. rewrite after_headings_Text in H.
  destruct (html_text page); [exact H|].
  destruct H as [Htruthy ->]. split; [|reflexivity].
  destruct (json_layer B page {["URL" := PStr url]} !! "Text") as [v|]; [eauto|discriminate].
Qed.

(** X3. Each field of a returned article comes from the first layer that
    resolves it: the title and the subtitle are the structured layer's value
    when it is truthy, else the first h1 (h2) heading, else "N/A"; the text is
    the structured layer's when truthy, else the HTML layer's; the claps and
    the author's name and URL are whatever the structured layer stored under
    the key (a stored None included), and the sentinel only when the key was
    never stored. *)
Theorem fields_by_layer (B : builtins) (page : soup) (url : string) (a : article) :
  extract_from_soup B page url = Returned a ->
  let stored := json_layer B page {["URL" := PStr url]} in
  URL a = url /\
  Title a = layered (stored !! "Title") (heading (h1_text page)) /\
  Subtitle a = layered (stored !! "Subtitle") (heading (h2_text page)) /\
  match html_text page with
  | Some t => Text a = layered (stored !! "Text") (PStr t)
  | None => truthy (Text a) = true /\ stored !! "Text" = Some (Text a)
  end /\
  Claps a = dict_get stored "Claps" (PInt 0) /\
  Author_Name a = dict_get stored "Author Name" (PStr "N/A") /\
  Author_URL a = dict_get stored "Author URL" (PStr "N/A").
Proof.
  intros Ha stored.
  apply extract_from_soup_inv in Ha as (ad & n & Htext & _ & Hfin).
  apply final_result_fields in Hfin
    as (Hurl & Ht & Hs & Hx & _ & _ & _ & Han & Hau & Hc).
  pose proof (Text_reaches_final B page url ad n Htext) as HText.
  unfold dict_get in *.
  rewrite (Title_reaches_final B page url ad n Htext) in Ht.
  rewrite (Subtitle_reaches_final B page url ad n Htext) in Hs.
  rewrite (json_key_reaches_final B page url ad n "Author Name" Htext) in Han
    by (unfold html_keys; rewrite !not_elem_of_cons, elem_of_nil; intuition discriminate).
  rewrite (json_key_reaches_final B page url ad n "Author URL" Htext) in Hau
    by (unfold html_keys; rewrite !not_elem_of_cons, elem_of_nil; intuition discriminate).
  rewrite (json_key_reaches_final B page url ad n "Claps" Htext) in Hc
    by (unfold html_keys; rewrite !not_elem_of_cons, elem_of_nil; intuition discriminate).
  repeat split; try assumption.
  simpl in HText. fold stored in HText.
  destruct (html_text page) as [t|].
  - now rewrite HText in Hx.
  - destruct HText as [(v & Hv & Htruthy) HText]. rewrite HText, Hv in Hx.
    subst v. split; [exact Htruthy | exact Hv].
Qed.


Lemma fields_by_layer_witness :
  exists a,
    extract_from_soup reference_builtins (post_page (PFloat (571 # 100)))
      "https://medium.com/@ann/on-reading-1" = Returned a /\
    Title a = PStr "On reading" /\
    Text a = PStr "First. Second." /\
    Claps a = PInt 12 /\
    Author_URL a = PStr "https://medium.com/@ann".
Proof.
  destruct (extract_from_soup reference_builtins (post_page (PFloat (571 # 100)))
              "https://medium.com/@ann/on-reading-1") as [a|e] eqn:E;
    [|vm_compute in E; discriminate E].
  exists a. split; [reflexivity|].
  destruct (fields_by_layer _ _ _ a E) as (_ & Ht & _ & Hx & Hc & _ & Hau).
  cbn [html_text post_page div_main_text article_text body_text] in Hx.
  destruct Hx as [_ Hx].
  split; [rewrite Ht; vm_compute; reflexivity|].
  split; [apply (inj Some); rewrite <- Hx; vm_compute; reflexivity|].
  split; [rewrite Hc | rewrite Hau]; vm_compute; reflexivity.
Defined.

(** *** The fields extraction always fills *)

Lemma length_omap_le {A C} (f : A -> option C) (l : list A) :
  (length (omap f l) <= length l)%nat.
Proof.
  induction l as [|x l IH]; cbn; [lia|].
  destruct (f x); cbn; lia.
Qed.

Lemma count_links_bounds B article_domain hrefs : forall acc n,
  count_links B article_domain hrefs acc = Returned n ->
  acc <= n <= acc + Z.of_nat (length hrefs).
Proof.
  induction hrefs as [|href hrefs IH]; intros acc n H; simpl in H.
  - injection H as <-. simpl. lia.
  - destruct (urlparse_netloc B href) as [d|]; [|discriminate]. simpl in H.
    apply IH in H. simpl length. destruct (is_external article_domain d); lia.
Qed.

Lemma count_external_links_bounds B page url n :
  count_external_links B page url = Returned n ->
  0 <= n <= Z.of_nat (length (a_hrefs page)).
Proof.
  unfold count_external_links.
  destruct (urlparse_netloc B url) as [d|]; [|discriminate]. simpl.
  intros H. apply count_links_bounds in H. lia.
Qed.

Lemma json_layer_Text B page url :
  json_layer B page {["URL" := PStr url]} !! "Text" = None \/
  exists s, json_layer B page {["URL" := PStr url]} !! "Text" = Some (PStr s).
Proof.
  destruct (structured_text _ _ _ (json_layer_structured B page {["URL" := PStr url]}))
    as [H|H]; [left | now right].
  now rewrite H.
Qed.

(** X4. In every article that extraction returns, the title and the
    subtitle are a truthy value of the structured layer or a string, never
    None; the text is a string; the image count is an integer between 0 and
    the number of img elements and the image URLs are a string; the count of
    external links is an integer between 0 and the number of anchors. *)
Theorem returned_fields_filled (B : builtins) (page : soup) (url : string)
    (a : article) :
  extract_from_soup B page url = Returned a ->
  (truthy (Title a) = true \/ exists s, Title a = PStr s) /\
  (truthy (Subtitle a) = true \/ exists s, Subtitle a = PStr s) /\
  (exists s, Text a = PStr s) /\
  (exists n, No_of_images a = PInt (Z.of_nat n) /\
             (n <= length (img_srcs page))%nat) /\
  (exists s, Image_URLs a = PStr s) /\
  (exists n, No_of_external_links a = PInt n /\
             0 <= n <= Z.of_nat (length (a_hrefs page))).
Proof.
  intros Ha.
  apply extract_from_soup_inv in Ha as (ad & n & Htext & Hn & Hfin).
  apply final_result_fields in Hfin
    as (_ & Ht & Hs & Hx & Hi & Hiu & Hl & _).
  unfold dict_get in *.
  rewrite (Title_reaches_final B page url ad n Htext) in Ht.
  rewrite (Subtitle_reaches_final B page url ad n Htext) in Hs.
  pose proof (Text_reaches_final B page url ad n Htext) as HText. simpl in HText.
  unfold assembled, count_images in Hi, Hiu, Hl.
  rewrite lookup_insert_eq in Hl.
  rewrite lookup_insert_ne, lookup_insert_ne, lookup_insert_eq in Hi by discriminate.
  rewrite lookup_insert_ne, lookup_insert_eq in Hiu by discriminate.
  assert (Hlayered : forall stored h,
             truthy (layered stored (heading h)) = true \/
             exists s, layered stored (heading h) = PStr s).
  { intros [v|] h; simpl; [|right; unfold heading; eauto].
    destruct (truthy v) eqn:E; [now left | right; unfold heading; eauto]. }
  split; [rewrite Ht; apply Hlayered|].
  split; [rewrite Hs; apply Hlayered|].
  split; [|split; [|split]].
  - destruct (json_layer_Text B page url) as [Hnone | [s Hsome]].
    + rewrite Hnone in HText. destruct (html_text page) as [t|].
      * rewrite HText in Hx. simpl in Hx. eauto.
      * destruct HText as [(v & Hv & _) _]. discriminate.
    + rewrite Hsome in HText. destruct (html_text page) as [t|].
      * rewrite HText in Hx. simpl in Hx.
        destruct (negb (s =? "")%string); eauto.
      * destruct HText as [_ HText]. rewrite HText in Hx. eauto.
  - eexists. split; [exact Hi | apply length_omap_le].
  - eauto.
  - exists n. split; [exact Hl | now apply (count_external_links_bounds B page url)].
Qed.

Lemma returned_fields_filled_witness :
  exists a,
    extract_from_soup reference_builtins linked_page
      "https://towardsdatascience.com/p/links-1" = Returned a /\
    (exists s, Text a = PStr s) /\
    (exists n, No_of_images a = PInt (Z.of_nat n) /\ (n <= 4)%nat).
Proof.
  destruct (extract_from_soup reference_builtins linked_page
              "https://towardsdatascience.com/p/links-1") as [a|e] eqn:E;
    [|vm_compute in E; discriminate E].
  exists a. split; [reflexivity|].
  destruct (returned_fields_filled _ _ _ a E) as (_ & _ & Hx & Hi & _).
  split; [exact Hx | exact Hi].
Defined.

(** X5. The author's name and URL are resolved together: either both are
    the sentinel "N/A", or the URL is "https://medium.com/@" followed by the
    text ([str]) of a username. *)
Theorem author_resolved_together (B : builtins) (page : soup) (url : string)
    (a : article) :
  extract_from_soup B page url = Returned a ->
  (Author_Name a = PStr "N/A" /\ Author_URL a = PStr "N/A") \/
  (exists username,
     Author_URL a = PStr ("https://medium.com/@" +:+ py_str B username)).
Proof.
  intros Ha.
  apply extract_from_soup_inv in Ha as (ad & n & Htext & _ & Hfin).
  apply final_result_fields in Hfin as (_ & _ & _ & _ & _ & _ & _ & Han & Hau & _).
  unfold dict_get in *.
  rewrite (json_key_reaches_final B page url ad n "Author Name" Htext) in Han
    by (unfold html_keys; rewrite !not_elem_of_cons, elem_of_nil; intuition discriminate).
  rewrite (json_key_reaches_final B page url ad n "Author URL" Htext) in Hau
    by (unfold html_keys; rewrite !not_elem_of_cons, elem_of_nil; intuition discriminate).
  destruct (structured_author _ _ _ (json_layer_structured B page {["URL" := PStr url]}))
    as [[Hn Hu] | (name & username & Hn & Hu)].
  - left. rewrite Hn in Han. rewrite Hu in Hau. now split.
  - right. exists username. now rewrite Hu in Hau.
Qed.

Lemma author_resolved_together_witness :
  exists a,
    extract_from_soup reference_builtins (post_page (PInt 0))
      "https://medium.com/@ann/on-reading-1" = Returned a /\
    exists username,
      Author_URL a = PStr ("https://medium.com/@" +:+ py_str reference_builtins username).
Proof.
  destruct (extract_from_soup reference_builtins (post_page (PInt 0))
              "https://medium.com/@ann/on-reading-1") as [a|e] eqn:E;
    [|vm_compute in E; discriminate E].
  exists a. split; [reflexivity|].
  destruct (author_resolved_together _ _ _ a E) as [[_ Hu] | H]; [|exact H].
  vm_compute in E. injection E as <-. discriminate Hu.
Defined.


(** *** Pages without structured data *)

Lemma text_fallback_unresolved page (ad : article_data) :
  truthy (dict_get ad "Text" PNone) = false ->
  text_fallback page ad =
    match html_text page with
    | Some t => Returned (<["Text" := PStr t]> ad)
    | None => Raised AttributeError
    end.
Proof.
  intros H. unfold text_fallback, html_text. rewrite H. simpl.
  destruct (div_main_text page); [reflexivity|].
  destruct (article_text page); [reflexivity|].
  destruct (body_text page); reflexivity.
Qed.

Lemma json_layer_no_data B page (ad : article_data) :
  no_structured_data page -> json_layer B page ad = ad.
Proof. unfold json_layer. now intros [-> | ->]. Qed.

(** X6. A page without usable structured data (no hydration script, or one
    that does not parse) is extracted from the HTML alone: the first h1 and
    h2 (or "N/A"), the text of the main container, else of the article
    element, else the first 500 characters of the body; the author is "N/A",
    the claps 0, the reading time "N/A", the keywords empty. *)
Theorem html_only_extraction (B : builtins) (page : soup) (url t : string)
    (external_links : Z) :
  no_structured_data page ->
  html_text page = Some t ->
  count_external_links B page url = Returned external_links ->
  extract_from_soup B page url = Returned (html_article page url t external_links).
Proof.
  intros Hno Ht Hlinks. unfold extract_from_soup, after_headings.
  rewrite (json_layer_no_data B page _ Hno).
  unfold title_fallback, subtitle_fallback, dict_get.
  rewrite lookup_singleton_ne by discriminate. simpl.
  rewrite lookup_insert_ne, lookup_singleton_ne by discriminate. simpl.
  rewrite text_fallback_unresolved, Ht.
  2:{ unfold dict_get. now rewrite !lookup_insert_ne, lookup_singleton_ne by discriminate. }
  simpl. rewrite Hlinks. simpl.
  unfold final_result, format_reading_time, format_keywords, count_images, dict_get.
  repeat first [ rewrite lookup_insert_eq
               | rewrite lookup_insert_ne by discriminate
               | rewrite lookup_singleton_ne by discriminate ].
  reflexivity.
Qed.

Lemma html_only_extraction_witness :
  extract_from_soup reference_builtins linked_page
    "https://towardsdatascience.com/p/links-1" =
    Returned (html_article linked_page "https://towardsdatascience.com/p/links-1"
                "Links of all kinds" 3).
Proof.
  apply (html_only_extraction reference_builtins linked_page
           "https://towardsdatascience.com/p/links-1" "Links of all kinds" 3).
  - left. reflexivity.
  - reflexivity.
  - vm_compute. reflexivity.
Defined.

(** X7. When the structured layer resolves no text and the page has no
    main container, no article element and no body element, extraction
    raises [AttributeError], whatever else the page holds. *)
Theorem extraction_raises_without_text (B : builtins) (page : soup) (url : string) :
  truthy (dict_get (json_layer B page {["URL" := PStr url]}) "Text" PNone) = false ->
  html_text page = None ->
  extract_from_soup B page url = Raised AttributeError.
Proof.
  intros Hfalsy Hnone. unfold extract_from_soup.
  rewrite text_fallback_unresolved, Hnone; [reflexivity|].
  unfold dict_get in *. now rewrite after_headings_Text.
Qed.

Lemma extraction_raises_without_text_witness :
  extract_from_soup reference_builtins page_with_empty_post
    "https://medium.com/p/short-1" = Raised AttributeError.
Proof.
  apply (extraction_raises_without_text reference_builtins page_with_empty_post
           "https://medium.com/p/short-1").
  - vm_compute. reflexivity.
  - reflexivity.
Defined.

End ExtractorMore.

(** ** The crawl *)

Section Crawl.
Import Scraper.

(** *** One URL *)

Lemma extract_medium_data_trace B html_parser net url :
  snd (extract_medium_data B html_parser net url) = snd (fetch_url net 3).
Proof.
  unfold extract_medium_data.
  destruct (fetch_url net 3) as [[r|] tr]; [|reflexivity].
  destruct (raise_for_status r); reflexivity.
Qed.

Lemma fetch_url_Some_ok net max_retries r :
  fst (fetch_url net max_retries) = Some r -> raise_for_status r = false.
Proof.
  unfold fetch_url.
  destruct (fetch_loop net 0 (Z.to_nat max_retries)) as [res tr] eqn:E.
  simpl. intros ->.
  apply fetch_loop_Some_inv in E as (k & _ & _ & [_ Hok] & _). exact Hok.
Qed.

(** [extract_medium_data] gives [None] exactly when the fetch fails. *)
Lemma extract_medium_data_None B html_parser net url :
  fst (extract_medium_data B html_parser net url) = Returned None <->
  fst (fetch_url net 3) = None.
Proof.
  unfold extract_medium_data.
  pose proof (fetch_url_Some_ok net 3) as Hok.
  destruct (fetch_url net 3) as [[r|] tr]; simpl in *.
  - rewrite (Hok r eq_refl). simpl.
    destruct (extract_from_soup B (html_parser (text r)) url); simpl;
      split; discriminate.
  - split; reflexivity.
Qed.

Lemma total_app l1 l2 : total (l1 ++ l2) = total l1 + total l2.
Proof. unfold total. induction l1 as [|x l1 IH]; simpl; lia. Qed.

Lemma total_schedule_nonneg k a : 0 <= total (schedule a k).
Proof. pose proof (total_schedule k a). nia. Qed.

(** One fetch with the default 3 retries: at most 3 requests, and between 0
    and 30 seconds slept. *)
Lemma fetch_url_3 net :
  (requests_sent (snd (fetch_url net 3)) <= 3)%nat /\
  0 <= total (sleeps (snd (fetch_url net 3))) <= 30.
Proof.
  unfold fetch_url.
  destruct (fetch_loop_trace net (Z.to_nat 3) 0) as (k & Hk & Hs & _ & Hr).
  change (Z.to_nat 3) with 3%nat in *. split; [exact Hr|].
  rewrite Hs. pose proof (total_schedule k 0). nia.
Qed.

(** X22. [extract_medium_data] fetches once, with 3 retries, and its
    events are those of that fetch: at most 3 requests and 30 seconds.  It
    gives [None] exactly when the fetch failed; a page that was fetched is
    always parsed and extracted, so the outcome is then an article or an
    exception of the extraction. *)
Theorem extract_medium_data_follows_fetch (B : builtins)
    (html_parser : string -> soup) (net : network) (url : string) :
  snd (extract_medium_data B html_parser net url) = snd (fetch_url net 3) /\
  (requests_sent (snd (extract_medium_data B html_parser net url)) <= 3)%nat /\
  total (sleeps (snd (extract_medium_data B html_parser net url))) <= 30 /\
  (fst (extract_medium_data B html_parser net url) = Returned None <->
   fst (fetch_url net 3) = None) /\
  (forall r, fst (fetch_url net 3) = Some r ->
     fst (extract_medium_data B html_parser net url) =
       match extract_from_soup B (html_parser (text r)) url with
       | Returned a => Returned (Some a)
       | Raised e => Raised e
       end).
Proof.
  pose proof (extract_medium_data_trace B html_parser net url) as Htr.
  pose proof (fetch_url_3 net) as [Hreq Hsleep].
  split; [exact Htr|]. rewrite Htr.
  split; [exact Hreq|]. split; [lia|].
  split; [apply extract_medium_data_None|].
  intros r Hr. pose proof (fetch_url_Some_ok net 3 r Hr) as Hok.
  unfold extract_medium_data.
  destruct (fetch_url net 3) as [res tr]. simpl in Hr. subst res.
  rewrite Hok. reflexivity.
Qed.

Lemma extract_medium_data_follows_fetch_witness :
  fst (extract_medium_data reference_builtins (fun _ => linked_page) net_403_403_200
         "https://medium.com/p/3") =
    Returned (Some (html_article linked_page "https://medium.com/p/3"
                      "Links of all kinds" 2)).
Proof.
  rewrite (proj2 (proj2 (proj2 (proj2
             (extract_medium_data_follows_fetch reference_builtins
                (fun _ => linked_page) net_403_403_200 "https://medium.com/p/3"))))
             (Response 200 "<html><body>ok</body></html>") eq_refl).
  vm_compute. reflexivity.
Defined.

(** *** The loop *)

Lemma extractions_cons B html_parser w i url urls :
  extractions B html_parser w i (url :: urls) =
    fst (extract_medium_data B html_parser (w i url) url)
    :: extractions B html_parser w (S i) urls.
Proof.
  unfold extractions. rewrite imap_cons, Nat.add_0_r. f_equal.
  apply imap_ext. intros j u _. simpl. now replace (i + S j)%nat with (S (i + j)) by lia.
Qed.

(** The loop saves the articles of the URLs that were fetched, in the order
    of the list, and stops at the first exception. *)
Lemma scrape_loop_closed_form B html_parser w urls : forall i results,
  fst (scrape_loop B html_parser w i urls results) =
    match comprehension id (extractions B html_parser w i urls) with
    | Returned datas => Returned (results ++ omap id datas)
    | Raised e => Raised e
    end.
Proof.
  induction urls as [|url urls IH]; intros i results.
  - simpl. now rewrite app_nil_r.
  - rewrite extractions_cons. simpl.
    destruct (extract_medium_data B html_parser (w i url) url) as [[data|e] tr];
      simpl; [|reflexivity].
    specialize (IH (S i) (match data with Some a => results ++ [a] | None => results end)).
    destruct (scrape_loop B html_parser w (S i) urls _) as [res tr']. simpl in *.
    rewrite IH.
    destruct (comprehension id (extractions B html_parser w (S i) urls)) as [datas|e];
      [|reflexivity].
    destruct data as [a|]; cbn; [now rewrite <- app_assoc | reflexivity].
Qed.

(** The events of the loop: at most 3 requests and 40 seconds per URL, and 10
    seconds at least for every URL of a run that ends normally. *)
Lemma scrape_loop_trace B html_parser w urls : forall i results,
  let run := scrape_loop B html_parser w i urls results in
  (requests_sent (snd run) <= 3 * length urls)%nat /\
  0 <= total (sleeps (snd run)) <= 40 * Z.of_nat (length urls) /\
  (forall rows, fst run = Returned rows ->
                10 * Z.of_nat (length urls) <= total (sleeps (snd run))).
Proof.
  induction urls as [|url urls IH]; intros i results; cbn zeta.
  - cbn. repeat split; try lia. 
  - simpl scrape_loop.
    pose proof (extract_medium_data_trace B html_parser (w i url) url) as Htr.
    pose proof (fetch_url_3 (w i url)) as [Hreq Hsleep].
    destruct (extract_medium_data B html_parser (w i url) url) as [[data|e] tr];
      simpl in Htr; subst tr.
    + specialize (IH (S i) (match data with Some a => results ++ [a] | None => results end)).
      cbn zeta in IH.
      destruct (scrape_loop B html_parser w (S i) urls _) as [res tr'].
      cbn [fst snd] in *. destruct IH as (IHreq & IHsleep & IHret).
      rewrite requests_sent_app, requests_sent_sleep, sleeps_app, sleeps_sleep, total_app.
      simpl length. change (total (10 :: sleeps tr')) with (10 + total (sleeps tr')).
      split; [lia|]. split; [lia|].
      intros rows Hrows. specialize (IHret rows Hrows). lia.
    + cbn [fst snd]. simpl length. split; [lia|]. split; [lia|]. discriminate.
Qed.


Lemma read_urls_blank lines :
  Forall (fun line => strip line = "") lines -> read_urls lines = [].
Proof.
  unfold read_urls. induction 1 as [|line lines Hline _ IH]; [reflexivity|].
  cbn. rewrite Hline. exact IH.
Qed.

Lemma length_extractions B html_parser w i urls :
  length (extractions B html_parser w i urls) = length urls.
Proof. unfold extractions. apply length_imap. Qed.

(** X8. Without a URL file, or with one whose lines are all blank,
    [scrape_urls_to_csv] reports it and does nothing: no request is sent, no
    time is slept, no file is written. *)
Theorem scrape_nothing_to_do (B : builtins) (html_parser : string -> soup) (w : web) :
  scrape_urls_to_csv B html_parser w None = (Returned UrlFileNotFound, []) /\
  forall lines,
    Forall (fun line => strip line = "") lines ->
    scrape_urls_to_csv B html_parser w (Some lines) = (Returned UrlFileEmpty, []).
Proof.
  split; [reflexivity|].
  intros lines Hblank. unfold scrape_urls_to_csv.
  now rewrite (read_urls_blank lines Hblank).
Qed.

(** X9. The rows [scrape_urls_to_csv] saves are the articles of the URLs
    whose fetch went through, in the order of the file; a URL whose fetch
    failed is skipped and the crawl goes on; when no URL gives an article,
    nothing is saved; the first exception of an extraction ends the run. *)
Theorem scrape_saves_successes (B : builtins) (html_parser : string -> soup)
    (w : web) (lines : list string) :
  read_urls lines <> [] ->
  fst (scrape_urls_to_csv B html_parser w (Some lines)) =
    match comprehension id (extractions B html_parser w 0 (read_urls lines)) with
    | Returned datas =>
        match omap id datas with
        | [] => Returned NothingScraped
        | rows => Returned (Saved rows)
        end
    | Raised e => Raised e
    end.
Proof.
  intros Hurls. unfold scrape_urls_to_csv.
  pose proof (scrape_loop_closed_form B html_parser w (read_urls lines) 0 []) as H.
  destruct (read_urls lines) as [|url urls] eqn:E; [contradiction|].
  destruct (scrape_loop B html_parser w 0 (url :: urls) []) as [res tr].
  cbn [fst] in *. rewrite H.
  destruct (comprehension id (extractions B html_parser w 0 (url :: urls)))
    as [datas|e]; [|reflexivity].
  cbn [app]. destruct (omap id datas); reflexivity.
Qed.

(** X10. A crawl of [n] URLs sends at most [3 n] requests and sleeps at
    most [40 n] seconds; a crawl that ends normally has slept at least
    [10 n] seconds, and the rows it saves are at least one and at most
    [n]. *)
Theorem scrape_is_polite (B : builtins) (html_parser : string -> soup) (w : web)
    (lines : list string) :
  let run := scrape_urls_to_csv B html_parser w (Some lines) in
  let n := length (read_urls lines) in
  (requests_sent (snd run) <= 3 * n)%nat /\
  0 <= total (sleeps (snd run)) <= 40 * Z.of_nat n /\
  forall report, fst run = Returned report ->
    10 * Z.of_nat n <= total (sleeps (snd run)) /\
    forall rows, report = Saved rows -> (1 <= length rows <= n)%nat.
Proof.
  cbn zeta. unfold scrape_urls_to_csv.
  pose proof (scrape_loop_trace B html_parser w (read_urls lines) 0 []) as Htrace.
  pose proof (scrape_loop_closed_form B html_parser w (read_urls lines) 0 []) as Hform.
  pose proof (length_extractions B html_parser w 0 (read_urls lines)) as Hlen.
  destruct (read_urls lines) as [|url urls] eqn:E.
  - cbn. split; [lia|]. split; [lia|]. intros report [= <-].
    split; [lia|]. intros rows' Hrows; discriminate Hrows.
  - cbn zeta in Htrace.
    destruct (scrape_loop B html_parser w 0 (url :: urls) []) as [res tr].
    cbn [fst snd] in *. destruct Htrace as (Hreq & Hsleep & Hret).
    split; [exact Hreq|]. split; [exact Hsleep|].
    intros report Hreport.
    destruct (comprehension id (extractions B html_parser w 0 (url :: urls)))
      as [datas|e] eqn:Hdatas; subst res; [|discriminate].
    split; [now apply (Hret (omap id datas))|].
    intros rows ->.
    apply comprehension_length in Hdatas. rewrite Hlen in Hdatas.
    pose proof (length_omap_le id datas) as Hle. cbn [app] in Hreport.
    destruct (omap id datas) as [|row rows'] eqn:Hrows; [discriminate|].
    injection Hreport as <-. simpl in *. lia.
Qed.

(** A run stops at the first extraction that raises. *)
Lemma scrape_loop_raises B html_parser w url post e pre : forall i results,
  Forall (fun o => exists data, o = Returned data) (extractions B html_parser w i pre) ->
  fst (extract_medium_data B html_parser (w (i + length pre)%nat url) url) = Raised e ->
  let run := scrape_loop B html_parser w i (pre ++ url :: post) results in
  fst run = Raised e /\
  (requests_sent (snd run) <= 3 * (length pre + 1))%nat.
Proof.
  induction pre as [|u pre IH]; intros i results Hpre Hraise; cbn zeta.
  - simpl in *. rewrite Nat.add_0_r in Hraise.
    pose proof (extract_medium_data_trace B html_parser (w i url) url) as Htr.
    pose proof (fetch_url_3 (w i url)) as [Hreq _].
    destruct (extract_medium_data B html_parser (w i url) url) as [[data|e'] tr];
      simpl in *; [discriminate|]. subst tr.
    injection Hraise as ->. split; [reflexivity | lia].
  - rewrite extractions_cons in Hpre. inversion Hpre as [|? ? [data Hdata] Hrest]; subst.
    simpl app. simpl scrape_loop.
    pose proof (extract_medium_data_trace B html_parser (w i u) u) as Htr.
    pose proof (fetch_url_3 (w i u)) as [Hreq _].
    destruct (extract_medium_data B html_parser (w i u) u) as [[data'|e'] tr];
      simpl in Hdata, Htr; [|discriminate]. subst tr.
    specialize (IH (S i) (match data' with Some a => results ++ [a] | None => results end) Hrest).
    cbn zeta in IH. simpl length in Hraise.
    replace (i + S (length pre))%nat with (S i + length pre)%nat in Hraise by lia.
    specialize (IH Hraise).
    destruct (scrape_loop B html_parser w (S i) (pre ++ url :: post) _) as [res tr'].
    cbn [fst snd] in *. destruct IH as [-> IHreq].
    split; [reflexivity|].
    rewrite requests_sent_app, requests_sent_sleep. simpl length. lia.
Qed.

(** The events of a run that raises at a URL are those of the run on the list
    cut after that URL. *)
Lemma scrape_loop_raises_cut B html_parser w url post e pre : forall i results,
  fst (extract_medium_data B html_parser (w (i + length pre)%nat url) url) = Raised e ->
  snd (scrape_loop B html_parser w i (pre ++ url :: post) results) =
  snd (scrape_loop B html_parser w i (pre ++ [url]) results).
Proof.
  induction pre as [|u pre IH]; intros i results Hraise.
  - simpl in *. rewrite Nat.add_0_r in Hraise.
    destruct (extract_medium_data B html_parser (w i url) url) as [[data|e'] tr];
      simpl in *; [discriminate | reflexivity].
  - simpl app. simpl scrape_loop.
    destruct (extract_medium_data B html_parser (w i u) u) as [[data'|e'] tr];
      [|reflexivity].
    simpl length in Hraise.
    replace (i + S (length pre))%nat with (S i + length pre)%nat in Hraise by lia.
    specialize (IH (S i) (match data' with Some a => results ++ [a] | None => results end)
                   Hraise).
    destruct (scrape_loop B html_parser w (S i) (pre ++ url :: post) _) as [res tr'].
    destruct (scrape_loop B html_parser w (S i) (pre ++ [url]) _) as [res2 tr2].
    cbn [snd] in *. now subst.
Qed.

(** The events of a run are those of its loop. *)
Lemma scrape_urls_to_csv_trace B html_parser w lines :
  snd (scrape_urls_to_csv B html_parser w (Some lines)) =
  snd (scrape_loop B html_parser w 0 (read_urls lines) []).
Proof.
  unfold scrape_urls_to_csv.
  destruct (read_urls lines) as [|url urls]; [reflexivity|].
  now destruct (scrape_loop B html_parser w 0 (url :: urls) []).
Qed.

(** X11. An exception raised while one URL is extracted is not caught: it
    ends the whole run.  Nothing is saved, the articles of the URLs before
    it included, and the URLs after it play no part: the events of the run
    are those of a run on the file cut after that URL, with at most 3
    requests per URL up to it. *)
Theorem scrape_aborts_on_exception (B : builtins) (html_parser : string -> soup)
    (w : web) (lines pre post : list string) (url : string) (e : exn) :
  read_urls lines = pre ++ url :: post ->
  Forall (fun o => exists data, o = Returned data) (extractions B html_parser w 0 pre) ->
  fst (extract_medium_data B html_parser (w (length pre) url) url) = Raised e ->
  let run := scrape_urls_to_csv B html_parser w (Some lines) in
  fst run = Raised e /\
  (forall cut, read_urls cut = pre ++ [url] ->
     snd run = snd (scrape_urls_to_csv B html_parser w (Some cut))) /\
  (requests_sent (snd run) <= 3 * (length pre + 1))%nat.
Proof.
  intros Hurls Hpre Hraise. cbn zeta.
  split; [|split].
  - unfold scrape_urls_to_csv. rewrite Hurls.
    pose proof (scrape_loop_raises B html_parser w url post e pre 0 [] Hpre Hraise) as H.
    cbn zeta in H.
    remember (pre ++ url :: post) as urls eqn:Happ in *.
    destruct urls as [|u0 rest]; [destruct pre; discriminate|].
    destruct (scrape_loop B html_parser w 0 (u0 :: rest) []) as [res tr].
    cbn [fst] in *. now destruct H as [-> _].
  - intros cut Hcut. rewrite !scrape_urls_to_csv_trace, Hurls, Hcut.
    now apply scrape_loop_raises_cut with (e := e).
  - rewrite scrape_urls_to_csv_trace, Hurls.
    exact (proj2 (scrape_loop_raises B html_parser w url post e pre 0 [] Hpre Hraise)).
Qed.


(** *** A small crawl *)

Lemma scrape_nothing_to_do_witness :
  scrape_urls_to_csv reference_builtins toy_parser toy_web
    (Some [newline; "   " +:+ newline; ""]) = (Returned UrlFileEmpty, []).
Proof.
  apply (proj2 (scrape_nothing_to_do reference_builtins toy_parser toy_web)).
  repeat constructor.
Defined.

Lemma scrape_saves_successes_witness :
  fst (scrape_urls_to_csv reference_builtins toy_parser toy_web (Some three_urls)) =
    Returned (Saved [html_article linked_page "https://towardsdatascience.com/p/links-1"
                       "Links of all kinds" 3;
                     html_article linked_page "https://medium.com/p/3"
                       "Links of all kinds" 2]).
Proof.
  rewrite (scrape_saves_successes reference_builtins toy_parser toy_web three_urls);
    [|vm_compute; discriminate].
  vm_compute. reflexivity.
Defined.

Lemma scrape_is_polite_witness :
  30 <= total (sleeps (snd (scrape_urls_to_csv reference_builtins toy_parser toy_web
                              (Some three_urls)))) /\
  (requests_sent (snd (scrape_urls_to_csv reference_builtins toy_parser toy_web
                         (Some three_urls))) <= 9)%nat.
Proof.
  destruct (scrape_is_polite reference_builtins toy_parser toy_web three_urls)
    as (Hreq & _ & Hret).
  split; [|exact Hreq].
  apply (Hret (Saved [html_article linked_page "https://towardsdatascience.com/p/links-1"
                        "Links of all kinds" 3;
                      html_article linked_page "https://medium.com/p/3"
                        "Links of all kinds" 2])).
  vm_compute. reflexivity.
Defined.

Lemma scrape_aborts_on_exception_witness :
  fst (scrape_urls_to_csv reference_builtins toy_parser toy_web
         (Some (four_urls ++ ["https://medium.com/p/5"]))) =
    Raised AttributeError.
Proof.
  apply (scrape_aborts_on_exception reference_builtins toy_parser toy_web
           (four_urls ++ ["https://medium.com/p/5"])
           ["https://towardsdatascience.com/p/links-1"; "https://medium.com/p/2";
            "https://medium.com/p/3"] ["https://medium.com/p/5"]
           "https://medium.com/p/4" AttributeError).
  - vm_compute. reflexivity.
  - vm_compute. repeat constructor; eexists; reflexivity.
  - vm_compute. reflexivity.
Defined.

End Crawl.

(** ** Loading and searching together *)

Section ApiMore.
Import Api.

(** *** Loading *)

Lemma Forall2_loaded_from (rows : list raw_row) (claps : list Z) :
  Forall2 coerced (map raw_Claps rows) claps ->
  Forall2 loaded_from rows
    (zip_with (fun r c => {| Title := raw_Title r; URL := raw_URL r; Claps := c;
                             search_corpus := make_search_corpus r |}) rows claps).
Proof.
  revert claps. induction rows as [|r rows IH]; intros claps H; simpl in *.
  - inversion H. constructor.
  - inversion H as [|? z ? claps' Hz Hrest]; subst. simpl.
    constructor; [unfold loaded_from; simpl; auto | now apply IH].
Qed.

(** A snapshot whose claps are castable loads, row for row. *)
Lemma load_frame (fit_transform : fitter) (rows : list raw_row) (g : globals)
    (fitted : vectorizer * list (list Q)) :
  fit_transform (map make_search_corpus rows) = Returned fitted ->
  Forall (fun r => castable (raw_Claps r)) rows ->
  exists d,
    load_data_and_prepare_model fit_transform (Some rows) g =
      Returned (true, {| df := Some d;
                         tfidf_vectorizer := Some (fst fitted);
                         tfidf_matrix := Some (snd fitted) |}) /\
    Forall2 loaded_from rows d.
Proof.
  intros Hfit Hcast.
  destruct (coerce_claps_Forall2 (map raw_Claps rows)) as (claps & Hclaps & Hall).
  { now rewrite Forall_map. }
  eexists. split.
  - unfold load_data_and_prepare_model. rewrite Hfit. simpl. rewrite Hclaps. simpl.
    reflexivity.
  - now apply Forall2_loaded_from.
Qed.

(** X12. [health_check] reports what was loaded: before any load, no data
    and 0 articles; after a start without the snapshot file, the same; after
    a load that went through, data loaded and as many articles as the
    snapshot has rows. *)
Theorem health_check_counts_rows (fit_transform : fitter) (rows : list raw_row)
    (g : globals) (fitted : vectorizer * list (list Q)) :
  fit_transform (map make_search_corpus rows) = Returned fitted ->
  Forall (fun r => castable (raw_Claps r)) rows ->
  health_check initial_globals =
    {| status := "ok"; data_loaded := false; article_count := 0 |} /\
  (exists g', load_data_and_prepare_model fit_transform None initial_globals =
                Returned (false, g') /\
              health_check g' = health_check initial_globals) /\
  exists g', load_data_and_prepare_model fit_transform (Some rows) g =
               Returned (true, g') /\
             health_check g' =
               {| status := "ok"; data_loaded := true;
                  article_count := length rows |}.
Proof.
  intros Hfit Hcast. split; [reflexivity|]. split; [eexists; split; reflexivity|].
  destruct (load_frame fit_transform rows g fitted Hfit Hcast) as (d & Hload & Hrows).
  eexists. split; [exact Hload|].
  unfold health_check. simpl. now rewrite (Forall2_length _ _ _ Hrows).
Qed.

Lemma health_check_counts_rows_witness :
  exists g', load_data_and_prepare_model indicator_fitter (Some snapshot_0_50_100)
               initial_globals = Returned (true, g') /\
             health_check g' =
               {| status := "ok"; data_loaded := true; article_count := 3 |}.
Proof.
  apply (health_check_counts_rows indicator_fitter snapshot_0_50_100 initial_globals
           (indicator, map indicator (map make_search_corpus snapshot_0_50_100))).
  - reflexivity.
  - repeat (apply List.Forall_cons;
            [vm_compute; split; [discriminate | reflexivity]|]).
    apply List.Forall_nil.
Defined.

Lemma astype_int_raises xs :
  Exists (fun x => x = Infinite \/ x = NaN) xs ->
  astype_int xs = Raised IntCastingNaNError.
Proof.
  unfold astype_int. induction xs as [|x xs IH]; intros H.
  - inversion H.
  - simpl. destruct x as [q| |]; try reflexivity.
    inversion H as [? ? [Hx|Hx]|? ? Hrest]; subst; try discriminate.
    now rewrite (IH Hrest).
Qed.

(** X13. One infinite claps value in the snapshot makes the whole load
    raise: [.astype(int)] refuses a column with a non-finite value, and
    nothing coerces an infinity to 0. *)
Theorem load_raises_on_infinite_claps (fit_transform : fitter)
    (rows : list raw_row) (g : globals) (fitted : vectorizer * list (list Q)) :
  fit_transform (map make_search_corpus rows) = Returned fitted ->
  Exists (fun r => raw_Claps r = CInfinite) rows ->
  load_data_and_prepare_model fit_transform (Some rows) g =
    Raised IntCastingNaNError.
Proof.
  intros Hfit Hinf. unfold load_data_and_prepare_model. rewrite Hfit. simpl.
  unfold coerce_claps. rewrite astype_int_raises; [reflexivity|].
  rewrite map_map, Exists_map. eapply Exists_impl; [exact Hinf|].
  simpl. intros r ->. now left.
Qed.

Lemma load_raises_on_infinite_claps_witness :
  load_data_and_prepare_model indicator_fitter
    (Some (snapshot_0_50_100 ++
           [ {| raw_Title := Some "Viral"; raw_Subtitle := None; raw_Text := None;
                raw_Keywords := None; raw_URL := None; raw_Claps := CInfinite |} ]))
    initial_globals = Raised IntCastingNaNError.
Proof.
  apply (load_raises_on_infinite_claps indicator_fitter _ initial_globals
           (indicator, map indicator (map make_search_corpus
              (snapshot_0_50_100 ++
               [ {| raw_Title := Some "Viral"; raw_Subtitle := None; raw_Text := None;
                    raw_Keywords := None; raw_URL := None; raw_Claps := CInfinite |} ])))).
  - reflexivity.
  - apply Exists_app. right. constructor. reflexivity.
Defined.


(** *** Loading, then searching *)

Lemma Forall2_lookup_loaded (rows : list raw_row) (d : list row) i x :
  Forall2 loaded_from rows d -> d !! i = Some x ->
  exists r, rows !! i = Some r /\ loaded_from r x.
Proof. intros H Hx. destruct (Forall2_lookup_r _ _ _ _ _ H Hx) as (r & ? & ?). eauto. Qed.

(** X14. After a load that went through with a well-behaved vectorizer,
    every query is answered with results, not with the error payload; for
    [top_n] from 1 on there are min(top_n, rows of the snapshot) of them, and
    each carries the title and URL of a snapshot row and that row's coerced
    claps. *)
Theorem load_then_search (S : sorter) (fit_transform : fitter)
    (rows : list raw_row) (g : globals) (fitted : vectorizer * list (list Q))
    (query : string) (top_n : Z) :
  fit_transform (map make_search_corpus rows) = Returned fitted ->
  well_fitted (length rows) fitted ->
  Forall (fun r => castable (raw_Claps r)) rows ->
  exists g' results,
    load_data_and_prepare_model fit_transform (Some rows) g = Returned (true, g') /\
    search_articles S g' query top_n = Returned (Results results) /\
    (1 <= top_n ->
     Z.of_nat (length results) = Z.min top_n (Z.of_nat (length rows))) /\
    forall res, res ∈ results ->
      exists r, r ∈ rows /\ res_Title res = raw_Title r /\ res_URL res = raw_URL r /\
                coerced (raw_Claps r) (res_Claps res).
Proof.
  intros Hfit [Hlen Hdim] Hcast.
  destruct (load_frame fit_transform rows g fitted Hfit Hcast) as (d & Hload & Hrows).
  pose proof (Forall2_length _ _ _ Hrows) as Hd.
  set (g' := {| df := Some d; tfidf_vectorizer := Some (fst fitted);
                tfidf_matrix := Some (snd fitted) |}) in *.
  assert (Hfitted : Api.fitted g' d (fst fitted) (snd fitted)).
  { unfold Api.fitted. simpl. repeat split; try assumption. congruence. }
  destruct (search_articles_run S g' d _ _ query top_n Hfitted)
    as (final_score & results & Hscores & Hlen' & Hresults & Hsearch).
  exists g', results. split; [exact Hload|]. split; [exact Hsearch|]. split.
  - intros Htop.
    rewrite (comprehension_length _ _ _ Hresults), top_indices_length by exact Htop.
    now rewrite Hlen', Hd.
  - intros res Hres. apply list_elem_of_lookup in Hres as [k Hk].
    destruct (comprehension_lookup _ _ _ _ _ Hresults Hk) as (i & _ & Hfmt).
    apply format_result_inv in Hfmt as (x & score & Hx & _ & Ht & Hu & Hc & _).
    destruct (Forall2_lookup_loaded _ _ _ _ Hrows Hx) as (r & Hr & Ht' & Hu' & Hc' & _).
    exists r. split; [eapply list_elem_of_lookup_2, Hr|].
    rewrite Ht, Hu, Hc. auto.
Qed.

Lemma load_then_search_witness :
  exists g' results,
    load_data_and_prepare_model indicator_fitter (Some snapshot_0_50_100)
      initial_globals = Returned (true, g') /\
    search_articles merge_sorter g' "rust" 2 = Returned (Results results) /\
    Z.of_nat (length results) = 2.
Proof.
  destruct (load_then_search merge_sorter indicator_fitter snapshot_0_50_100
              initial_globals
              (indicator, map indicator (map make_search_corpus snapshot_0_50_100))
              "rust" 2)
    as (g' & results & Hload & Hsearch & Hlen & _).
  - reflexivity.
  - split; [reflexivity|]. intros query. repeat constructor.
  - repeat (apply List.Forall_cons;
            [vm_compute; split; [discriminate | reflexivity]|]).
    apply List.Forall_nil.
  - exists g', results. split; [exact Hload|]. split; [exact Hsearch|].
    rewrite Hlen by lia. reflexivity.
Defined.

(** *** The selection *)

Lemma top_indices_optimal S final_score top_n i j :
  i ∈ top_indices S final_score top_n ->
  (j < length final_score)%nat ->
  j ∉ top_indices S final_score top_n ->
  (nth j final_score 0 <= nth i final_score 0)%Q.
Proof.
  unfold top_indices, slice_from. set (k := Z.to_nat _).
  rewrite !elem_of_reverse. intros Hi Hj Hnot.
  assert (Hin : j ∈ argsort S final_score).
  { rewrite (argsort_Permutation S final_score). apply elem_of_seq. lia. }
  pose proof (argsort_ascending S final_score) as Hsorted.
  rewrite <- (take_drop k (argsort S final_score)) in Hin, Hsorted.
  apply elem_of_app in Hin as [Hin | Hin]; [|contradiction].
  exact (StronglySorted_app_1_elem_of _ _ _ _ _ Hsorted Hin Hi).
Qed.

Lemma top_indices_NoDup S final_score top_n :
  NoDup (top_indices S final_score top_n).
Proof.
  unfold top_indices, slice_from. set (k := Z.to_nat _).
  rewrite reverse_Permutation.
  assert (H : NoDup (argsort S final_score)).
  { rewrite (argsort_Permutation S final_score). apply NoDup_seq. }
  rewrite <- (take_drop k (argsort S final_score)) in H.
  now apply NoDup_app in H as (_ & _ & H).
Qed.

(** X15. The results are the top of the ranking: on a fitted index, a row
    that is left out never has a higher fused score than a row that is
    returned, nor a higher rounded score than any result shows. *)
Theorem search_articles_keeps_the_best (S : sorter) (g : globals) (d : list row)
    (v : vectorizer) (matrix : list (list Q)) (query : string) (top_n : Z) :
  fitted g d v matrix ->
  exists final_score results,
    final_scores v matrix d query = Returned final_score /\
    search_articles S g query top_n = Returned (Results results) /\
    forall j score,
      final_score !! j = Some score ->
      j ∉ top_indices S final_score top_n ->
      (forall i score', i ∈ top_indices S final_score top_n ->
                        final_score !! i = Some score' -> (score <= score')%Q) /\
      (forall res, res ∈ results -> (round4 score <= res_Relevance_Score res)%Q).
Proof.
  intros Hfit.
  destruct (search_articles_run S g d v matrix query top_n Hfit)
    as (final_score & results & Hscores & Hlen & Hresults & Hsearch).
  exists final_score, results. split; [exact Hscores|]. split; [exact Hsearch|].
  intros j score Hj Hout.
  assert (Hbest : forall i score', i ∈ top_indices S final_score top_n ->
                    final_score !! i = Some score' -> (score <= score')%Q).
  { intros i score' Hi Hscore'.
    pose proof (top_indices_optimal S final_score top_n i j Hi
                  (lookup_lt_Some _ _ _ Hj) Hout) as H.
    now rewrite !nth_lookup, Hj, Hscore' in H. }
  split; [exact Hbest|].
  intros res Hres. apply list_elem_of_lookup in Hres as [k Hk].
  destruct (comprehension_lookup _ _ _ _ _ Hresults Hk) as (i & Hi & Hfmt).
  apply format_result_inv in Hfmt as (_ & score' & _ & Hscore' & _ & _ & _ & ->).
  apply round4_mono, (Hbest i); [eapply list_elem_of_lookup_2, Hi | exact Hscore'].
Qed.

Lemma loaded_fitted_explicit :
  fitted (loaded snapshot_0_50_100) frame_0_50_100 indicator matrix_0_50_100.
Proof.
  unfold fitted. split; [reflexivity|]. split; [reflexivity|].
  split; [reflexivity|]. split; [reflexivity|].
  intros query. repeat constructor.
Qed.

Lemma search_articles_keeps_the_best_witness :
  exists results,
    search_articles merge_sorter (loaded snapshot_0_50_100) "python" 2 =
      Returned (Results results) /\
    forall res, res ∈ results -> (round4 0 <= res_Relevance_Score res)%Q.
Proof.
  destruct (search_articles_keeps_the_best merge_sorter (loaded snapshot_0_50_100)
              frame_0_50_100 indicator matrix_0_50_100 "python" 2
              loaded_fitted_explicit)
    as (final_score & results & Hscores & Hsearch & Hbest).
  exists results. split; [exact Hsearch|].
  vm_compute in Hscores. injection Hscores as <-.
  intros res Hres.
  destruct (Hbest 0%nat (0 # 10000)%Q eq_refl) as [_ Hres'].
  - match goal with
    | |- _ ∉ ?l => let l' := eval vm_compute in l in change l with l'
    end.
    rewrite !not_elem_of_cons. repeat split; try discriminate. apply not_elem_of_nil.
  - exact (Hres' res Hres).
Defined.

(** X16. No row is returned twice: the results come, in order, from
    pairwise distinct rows of the data frame. *)
Theorem search_articles_rows_distinct (S : sorter) (g : globals) (d : list row)
    (v : vectorizer) (matrix : list (list Q)) (query : string) (top_n : Z) :
  fitted g d v matrix ->
  exists final_score positions results,
    final_scores v matrix d query = Returned final_score /\
    search_articles S g query top_n = Returned (Results results) /\
    NoDup positions /\
    Forall (fun i => (i < length d)%nat) positions /\
    Forall2 (fun i res => format_result d final_score i = Returned res)
            positions results.
Proof.
  intros Hfit.
  destruct (search_articles_run S g d v matrix query top_n Hfit)
    as (final_score & results & Hscores & Hlen & Hresults & Hsearch).
  exists final_score, (top_indices S final_score top_n), results.
  split; [exact Hscores|]. split; [exact Hsearch|].
  split; [apply top_indices_NoDup|]. split.
  - apply Forall_forall. intros i Hi. rewrite <- Hlen.
    eapply top_indices_in_range, Hi.
  - now apply comprehension_Forall2.
Qed.

Lemma search_articles_rows_distinct_witness :
  exists (positions : list nat) (results : list scored_article),
    search_articles merge_sorter (loaded snapshot_0_50_100) "python" 10 =
      Returned (Results results) /\
    NoDup positions /\ length positions = length results.
Proof.
  destruct (search_articles_rows_distinct merge_sorter (loaded snapshot_0_50_100)
              frame_0_50_100 indicator matrix_0_50_100 "python" 10
              loaded_fitted_explicit)
    as (final_score & positions & results & _ & Hsearch & Hnodup & _ & Hall).
  exists positions, results. split; [exact Hsearch|]. split; [exact Hnodup|].
  eapply Forall2_length, Hall.
Defined.

(** X17. [top_n] below 1 is not an empty request: the slice [[-top_n:]]
    then drops the [-top_n] lowest rows, so 0 returns every row and a
    negative [top_n] returns all but the [-top_n] lowest. *)
Theorem search_articles_top_n_below_one (S : sorter) (g : globals) (d : list row)
    (v : vectorizer) (matrix : list (list Q)) (query : string) (top_n : Z) :
  fitted g d v matrix ->
  top_n <= 0 ->
  exists results,
    search_articles S g query top_n = Returned (Results results) /\
    Z.of_nat (length results) = Z.max (Z.of_nat (length d) + top_n) 0.
Proof.
  intros Hfit Htop.
  destruct (search_articles_run S g d v matrix query top_n Hfit)
    as (final_score & results & Hscores & Hlen & Hresults & Hsearch).
  exists results. split; [exact Hsearch|].
  rewrite (comprehension_length _ _ _ Hresults).
  unfold top_indices, slice_from.
  rewrite length_reverse, length_drop.
  rewrite (Permutation_length (argsort_Permutation S final_score)), length_seq, Hlen.
  destruct (- top_n <? 0) eqn:E; [apply Z.ltb_lt in E; lia|]. lia.
Qed.

Lemma search_articles_top_n_below_one_witness :
  exists results,
    search_articles merge_sorter (loaded snapshot_0_50_100) "python" 0 =
      Returned (Results results) /\
    Z.of_nat (length results) = 3.
Proof.
  destruct (search_articles_top_n_below_one merge_sorter (loaded snapshot_0_50_100)
              frame_0_50_100 indicator matrix_0_50_100 "python" 0
              loaded_fitted_explicit ltac:(lia)) as (results & Hsearch & Hlen).
  exists results. split; [exact Hsearch|]. rewrite Hlen. reflexivity.
Defined.


(** *** Popularity against similarity *)

(** The normalised claps of a row, when the range of the claps fits. *)
Lemma normalized_claps_value (d : list row) (min_claps max_claps : Z) i r :
  series_min (map Claps d) = Some min_claps ->
  series_max (map Claps d) = Some max_claps ->
  max_claps - min_claps < 2 ^ 63 ->
  d !! i = Some r ->
  min_claps <= Claps r <= max_claps /\
  normalized_claps d !! i =
    Some (if max_claps >? min_claps
          then (inject_Z (Claps r - min_claps) / inject_Z (max_claps - min_claps))%Q
          else (1 # 2)%Q).
Proof.
  intros Hmin Hmax Hrange Hr.
  assert (Hlookup : map Claps d !! i = Some (Claps r)).
  { change (map Claps d) with (Claps <$> d). now rewrite list_lookup_fmap, Hr. }
  assert (Hc : Claps r ∈ map Claps d) by (eapply list_elem_of_lookup_2, Hlookup).
  pose proof (series_min_le _ _ _ Hmin Hc) as Hlo.
  pose proof (series_max_ge _ _ _ Hmax Hc) as Hhi.
  split; [lia|].
  unfold normalized_claps. rewrite Hmin, Hmax.
  destruct (max_claps >? min_claps) eqn:E.
  - apply Z.gtb_lt in E.
    change (map ?f (map Claps d)) with (f <$> map Claps d).
    rewrite list_lookup_fmap, Hlookup. simpl.
    now rewrite !wrap64_small by lia.
  - apply lookup_replicate_2. eapply lookup_lt_Some, Hr.
Qed.

Lemma ratio_le_iff (a1 a2 b : Z) :
  0 < b ->
  (inject_Z a1 / inject_Z b <= inject_Z a2 / inject_Z b)%Q <-> a1 <= a2.
Proof.
  intros Hb.
  assert (Hb' : (0 < / inject_Z b)%Q).
  { apply Qinv_lt_0_compat. change 0%Q with (inject_Z 0). now rewrite <- Zlt_Qlt. }
  unfold Qdiv. rewrite (Qmult_le_r _ _ _ Hb'). now rewrite <- Zle_Qle.
Qed.

(** X18. When the range of the claps fits 64 bits, normalisation keeps
    their order: of two rows, the one with more claps never gets the lower
    popularity, and when the claps are not all equal a higher popularity
    means more claps; the least clapped row gets 0 and the most clapped 1. *)
Theorem normalized_claps_keeps_order (d : list row) (min_claps max_claps : Z)
    (i j : nat) (ri rj : row) :
  series_min (map Claps d) = Some min_claps ->
  series_max (map Claps d) = Some max_claps ->
  max_claps - min_claps < 2 ^ 63 ->
  d !! i = Some ri -> d !! j = Some rj ->
  exists pi pj,
    normalized_claps d !! i = Some pi /\ normalized_claps d !! j = Some pj /\
    (Claps ri <= Claps rj -> (pi <= pj)%Q) /\
    (min_claps < max_claps -> (pi <= pj)%Q -> Claps ri <= Claps rj) /\
    (min_claps < max_claps -> Claps ri = min_claps -> (pi == 0)%Q) /\
    (min_claps < max_claps -> Claps ri = max_claps -> (pi == 1)%Q).
Proof.
  intros Hmin Hmax Hrange Hi Hj.
  destruct (normalized_claps_value d _ _ i ri Hmin Hmax Hrange Hi) as [Hbi Hpi].
  destruct (normalized_claps_value d _ _ j rj Hmin Hmax Hrange Hj) as [Hbj Hpj].
  eexists. eexists. split; [exact Hpi|]. split; [exact Hpj|].
  destruct (max_claps >? min_claps) eqn:E.
  - apply Z.gtb_lt in E. repeat split.
    + intros Hle. apply ratio_le_iff; lia.
    + intros _ Hle. apply ratio_le_iff in Hle; lia.
    + intros _ ->. rewrite Z.sub_diag. unfold Qdiv. apply Qmult_0_l.
    + intros _ ->. apply Qmult_inv_r.
      change 0%Q with (inject_Z 0). rewrite inject_Z_injective. lia.
  - repeat split; try lia. intros _. apply Qle_refl.
Qed.

Lemma normalized_claps_keeps_order_witness :
  exists pi pj,
    normalized_claps frame_0_50_100 !! 0%nat = Some pi /\
    normalized_claps frame_0_50_100 !! 1%nat = Some pj /\
    (pi <= pj)%Q /\ (pi == 0)%Q.
Proof.
  destruct (normalized_claps_keeps_order frame_0_50_100 0 100 0 1
              (Row (Some "Cooking") (Some "https://medium.com/p/1") 0
                   "Cooking  soup food")
              (Row (Some "Snakes") (Some "https://medium.com/p/2") 50
                   "Snakes and code python everywhere ")
              eq_refl eq_refl ltac:(lia) eq_refl eq_refl)
    as (pi & pj & Hpi & Hpj & Hle & _ & Hzero & _).
  exists pi, pj. split; [exact Hpi|]. split; [exact Hpj|].
  split; [apply Hle; simpl; lia | apply Hzero; [lia | reflexivity]].
Defined.

Lemma final_scores_length v matrix d query final_score :
  final_scores v matrix d query = Returned final_score ->
  length final_score = length d.
Proof.
  unfold final_scores, linear_kernel, weighted_score. intros H.
  destruct (comprehension _ matrix) as [sims|]; [|discriminate]. simpl in H.
  destruct (length sims =? length (normalized_claps d))%nat eqn:E; [|discriminate].
  injection H as <-. apply Nat.eqb_eq in E.
  rewrite length_zip_with, E, length_normalized_claps. lia.
Qed.

Lemma dot_deterministic u w s s' :
  dot u w = Returned s -> dot u w = Returned s' -> s = s'.
Proof. congruence. Qed.

(** X19. Popularity moves a score by 0.3 at most: when the range of the
    claps fits 64 bits, the fused score of a row lies between 0.7 times its
    similarity and that plus 0.3; so a row whose similarity is more than 3/7
    above another's gets the higher score, whatever their claps. *)
Theorem popularity_weighs_at_most_0_3 (v : vectorizer) (matrix : list (list Q))
    (d : list row) (query : string) (final_score : list Q)
    (min_claps max_claps : Z) :
  final_scores v matrix d query = Returned final_score ->
  series_min (map Claps d) = Some min_claps ->
  series_max (map Claps d) = Some max_claps ->
  max_claps - min_claps < 2 ^ 63 ->
  (forall i score, final_score !! i = Some score ->
     exists weights similarity,
       matrix !! i = Some weights /\ dot (v query) weights = Returned similarity /\
       ((7 # 10) * similarity <= score <= (7 # 10) * similarity + (3 # 10))%Q) /\
  (forall i j wi wj si sj fi fj,
     matrix !! i = Some wi -> matrix !! j = Some wj ->
     dot (v query) wi = Returned si -> dot (v query) wj = Returned sj ->
     final_score !! i = Some fi -> final_score !! j = Some fj ->
     (sj + (3 # 7) < si)%Q -> (fj < fi)%Q).
Proof.
  intros Hscores Hmin Hmax Hrange.
  pose proof (final_scores_length _ _ _ _ _ Hscores) as Hlen.
  assert (Hbound : forall i score, final_score !! i = Some score ->
            exists weights similarity,
              matrix !! i = Some weights /\ dot (v query) weights = Returned similarity /\
              ((7 # 10) * similarity <= score <= (7 # 10) * similarity + (3 # 10))%Q).
  { intros i score Hi.
    destruct (final_scores_lookup _ _ _ _ _ _ _ Hscores Hi)
      as (weights & similarity & popularity & Hw & Hdot & Hpop & ->).
    exists weights, similarity. split; [exact Hw|]. split; [exact Hdot|].
    destruct (lookup_lt_is_Some_2 d i) as [r Hr].
    { rewrite <- Hlen. eapply lookup_lt_Some, Hi. }
    destruct (normalized_claps_value d _ _ i r Hmin Hmax Hrange Hr) as [Hb Hp].
    rewrite Hp in Hpop. injection Hpop as <-.
    destruct (max_claps >? min_claps) eqn:E.
    - apply Z.gtb_lt in E.
      pose proof (ratio_in_unit_interval (Claps r - min_claps) (max_claps - min_claps)
                    ltac:(lia) ltac:(lia)) as [H0 H1].
      split; lra.
    - split; lra. }
  split; [exact Hbound|].
  intros i j wi wj si sj fi fj Hwi Hwj Hsi Hsj Hfi Hfj Hgap.
  destruct (Hbound i fi Hfi) as (wi' & si' & Hwi' & Hsi' & Hi).
  destruct (Hbound j fj Hfj) as (wj' & sj' & Hwj' & Hsj' & Hj).
  rewrite Hwi in Hwi'. injection Hwi' as <-.
  rewrite Hwj in Hwj'. injection Hwj' as <-.
  rewrite (dot_deterministic _ _ _ _ Hsi Hsi') in Hgap.
  rewrite (dot_deterministic _ _ _ _ Hsj Hsj') in Hgap.
  lra.
Qed.

Lemma popularity_weighs_at_most_0_3_witness :
  exists final_score,
    final_scores indicator matrix_0_50_100 frame_0_50_100 "python" =
      Returned final_score /\
    forall fi fj, final_score !! 1%nat = Some fi -> final_score !! 2%nat = Some fj ->
                  (fj < fi)%Q.
Proof.
  eexists. split; [vm_compute; reflexivity|].
  intros fi fj Hfi Hfj.
  apply (proj2 (popularity_weighs_at_most_0_3 indicator matrix_0_50_100 frame_0_50_100
                  "python" _ 0 100 eq_refl eq_refl eq_refl ltac:(lia))
           1%nat 2%nat [1%Q; 0%Q] [0%Q; 1%Q] (1 * 1 + (0 * 0 + 0))%Q
           (1 * 0 + (0 * 1 + 0))%Q fi fj
           eq_refl eq_refl eq_refl eq_refl Hfi Hfj).
  reflexivity.
Defined.


(** *** A query without known terms *)

Lemma dot_zero (u : list Q) : forall w s,
  Forall (fun x => x == 0)%Q u -> dot u w = Returned s -> (s == 0)%Q.
Proof.
  induction u as [|x u IH]; intros [|y w] s Hu H; simpl in H; try discriminate.
  - now injection H as <-.
  - inversion Hu as [|? ? Hx Hrest]; subst.
    destruct (dot u w) as [s'|] eqn:E; [|discriminate]. simpl in H.
    injection H as <-. rewrite Hx, (IH w s' Hrest E). ring.
Qed.

(** X20. A query whose vector is zero (no term of the vocabulary) is
    ranked by popularity alone: on a fitted index whose claps range fits 64
    bits, the results come in the order of descending claps. *)
Theorem unknown_query_ranks_by_claps (S : sorter) (g : globals) (d : list row)
    (v : vectorizer) (matrix : list (list Q)) (query : string) (top_n : Z)
    (min_claps max_claps : Z) :
  fitted g d v matrix ->
  Forall (fun x => x == 0)%Q (v query) ->
  series_min (map Claps d) = Some min_claps ->
  series_max (map Claps d) = Some max_claps ->
  max_claps - min_claps < 2 ^ 63 ->
  exists results,
    search_articles S g query top_n = Returned (Results results) /\
    StronglySorted (fun a b => res_Claps b <= res_Claps a) results.
Proof.
  intros Hfit Hzero Hmin Hmax Hrange.
  destruct (search_articles_run S g d v matrix query top_n Hfit)
    as (final_score & results & Hscores & Hlen & Hresults & Hsearch).
  exists results. split; [exact Hsearch|].
  eapply StronglySorted_Forall2;
    [|apply (comprehension_Forall2 _ _ _ Hresults)
     |apply (top_indices_descending S final_score top_n)].
  intros i j a b Ha Hb Hij. simpl in *.
  apply format_result_inv in Ha as (ra & sa & Hra & Hsa & _ & _ & -> & _).
  apply format_result_inv in Hb as (rb & sb & Hrb & Hsb & _ & _ & -> & _).
  rewrite !nth_lookup, Hsa, Hsb in Hij. simpl in Hij.
  destruct (final_scores_lookup _ _ _ _ _ _ _ Hscores Hsa)
    as (wa & sima & pa & _ & Hda & Hpa & ->).
  destruct (final_scores_lookup _ _ _ _ _ _ _ Hscores Hsb)
    as (wb & simb & pb & _ & Hdb & Hpb & ->).
  apply (dot_zero _ _ _ Hzero) in Hda, Hdb.
  assert (Hp : (pb <= pa)%Q) by (rewrite Hda, Hdb in Hij; lra).
  destruct (normalized_claps_value d _ _ i ra Hmin Hmax Hrange Hra) as [Hba Hva].
  destruct (normalized_claps_value d _ _ j rb Hmin Hmax Hrange Hrb) as [Hbb Hvb].
  rewrite Hva in Hpa. rewrite Hvb in Hpb.
  injection Hpa as <-. injection Hpb as <-.
  destruct (max_claps >? min_claps) eqn:E.
  - apply Z.gtb_lt in E. apply ratio_le_iff in Hp; lia.
  - lia.
Qed.

Lemma unknown_query_ranks_by_claps_witness :
  exists results,
    search_articles merge_sorter (loaded snapshot_0_50_100) "" 10 =
      Returned (Results results) /\
    StronglySorted (fun a b => res_Claps b <= res_Claps a) results.
Proof.
  apply (unknown_query_ranks_by_claps merge_sorter (loaded snapshot_0_50_100)
           frame_0_50_100 indicator matrix_0_50_100 "" 10 0 100
           loaded_fitted_explicit).
  - repeat constructor.
  - reflexivity.
  - reflexivity.
  - lia.
Defined.

(** *** Rounding *)

Lemma round_half_even_error (q : Q) :
  (- (1 # 2) <= inject_Z (round_half_even q) - q <= 1 # 2)%Q.
Proof.
  pose proof (Qfloor_le q) as Hlo. pose proof (Qlt_floor q) as Hhi.
  rewrite inject_Z_plus in Hhi. change (inject_Z 1) with 1%Q in Hhi.
  unfold round_half_even.
  destruct (Qcompare_spec (q - inject_Z (Qfloor q)) (1 # 2)) as [H|H|H].
  - destruct (Z.even (Qfloor q)).
    + split; lra.
    + rewrite inject_Z_plus. change (inject_Z 1) with 1%Q. split; lra.
  - split; lra.
  - rewrite inject_Z_plus. change (inject_Z 1) with 1%Q. split; lra.
Qed.

Lemma round4_error (x : Q) : (- (1 # 20000) <= round4 x - x <= 1 # 20000)%Q.
Proof.
  pose proof (round_half_even_error (x * 10000)) as H.
  unfold round4. set (z := inject_Z (round_half_even (x * 10000))) in *.
  assert (E : (z / 10000 == z * (1 # 10000))%Q) by reflexivity.
  rewrite E. split; lra.
Qed.

(** X21. The relevance score a result shows is within 0.00005 of the fused
    score of its row. *)
Theorem relevance_score_close_to_fused (S : sorter) (g : globals) (d : list row)
    (v : vectorizer) (matrix : list (list Q)) (query : string) (top_n : Z) :
  fitted g d v matrix ->
  exists final_score results,
    final_scores v matrix d query = Returned final_score /\
    search_articles S g query top_n = Returned (Results results) /\
    forall res, res ∈ results ->
      exists i score,
        final_score !! i = Some score /\
        format_result d final_score i = Returned res /\
        (- (1 # 20000) <= res_Relevance_Score res - score <= 1 # 20000)%Q.
Proof.
  intros Hfit.
  destruct (search_articles_run S g d v matrix query top_n Hfit)
    as (final_score & results & Hscores & Hlen & Hresults & Hsearch).
  exists final_score, results. split; [exact Hscores|]. split; [exact Hsearch|].
  intros res Hres. apply list_elem_of_lookup in Hres as [k Hk].
  destruct (comprehension_lookup _ _ _ _ _ Hresults Hk) as (i & _ & Hfmt).
  pose proof Hfmt as Hinv.
  apply format_result_inv in Hinv as (_ & score & _ & Hscore & _ & _ & _ & ->).
  exists i, score. split; [exact Hscore|]. split; [exact Hfmt|]. apply round4_error.
Qed.

Lemma relevance_score_close_to_fused_witness :
  exists results,
    search_articles merge_sorter (loaded snapshot_0_50_100) "python" 2 =
      Returned (Results results) /\
    forall res, res ∈ results ->
      exists score, (- (1 # 20000) <= res_Relevance_Score res - score <= 1 # 20000)%Q.
Proof.
  destruct (relevance_score_close_to_fused merge_sorter (loaded snapshot_0_50_100)
              frame_0_50_100 indicator matrix_0_50_100 "python" 2
              loaded_fitted_explicit)
    as (final_score & results & _ & Hsearch & Hall).
  exists results. split; [exact Hsearch|].
  intros res Hres. destruct (Hall res Hres) as (i & score & _ & _ & H). eauto.
Defined.

End ApiMore.
